(** * Coffeeshop sales dashboard: loader, filter and aggregates of [dashboard.py]

    The script is a Streamlit page over a pandas [DataFrame].  The embedding
    keeps the shape of the script:

    - a [DataFrame] is column-major, a list of labelled columns of cells;
    - the pandas calls of the script ([rename], [to_datetime], [to_numeric],
      [fillna], [astype], comparisons, [isin], boolean indexing, [groupby]
      with [sum], [sort_values], [head], [copy], [map]) are list functions
      on columns;
    - the frames bound to the script's variables live in a store of
      locations, so that [copy] and column assignment are visible;
    - the Streamlit calls are events appended to a log, and [st.stop] ends
      the run.

    Numbers are exact rationals ([Q]) where pandas has [float64]; labels and
    texts are byte strings and [lower]/[strip] are the ASCII ones. *)

From Stdlib Require Import Ascii String QArith Qround Lqa.
From stdpp Require Import base list strings pretty gmap sorting.

Local Open Scope Z_scope.

(** ** Cells and errors *)

(** One entry of a column.  [Null] stands for pandas' missing marker
    (NaN, NaT, None); [Ts] is a timestamp in nanoseconds since the epoch;
    [Int] is an [int64] entry and [Num] a [float64] one. *)
Inductive cell :=
  | Null
  | Int (z : Z)
  | Num (q : Q)
  | Str (s : string)
  | Ts (t : Z).

Inductive error :=
  | FileError (msg : string)
  | KeyError (label : string)
  | ValueError (msg : string).

Inductive result (A : Type) :=
  | Ok (a : A)
  | Err (e : error).
Arguments Ok {A} a.
Arguments Err {A} e.

#[global] Instance result_ret : MRet result := fun A a => Ok a.
#[global] Instance result_bind : MBind result := fun A B f m =>
  match m with
  | Ok a => f a
  | Err e => Err e
  end.

#[global] Instance Q_eq_dec : EqDecision Q.
Proof. solve_decision. Defined.
#[global] Instance cell_eq_dec : EqDecision cell.
Proof. solve_decision. Defined.

(** ** Labels: [str.strip] and [str.lower] on ASCII text *)

Definition is_upper (a : ascii) : bool :=
  let n := nat_of_ascii a in (65 <=? n)%nat && (n <=? 90)%nat.

Definition lower_ascii (a : ascii) : ascii :=
  if is_upper a then ascii_of_nat (nat_of_ascii a + 32) else a.

Fixpoint lower (s : string) : string :=
  match s with
  | EmptyString => EmptyString
  | String a r => String (lower_ascii a) (lower r)
  end.

(** Python's ASCII white space: tab, line feed, vertical tab, form feed,
    carriage return, the four separators 28..31 and the blank. *)
Definition is_white (a : ascii) : bool :=
  let n := nat_of_ascii a in
  ((9 <=? n)%nat && (n <=? 13)%nat) || ((28 <=? n)%nat && (n <=? 32)%nat).

Fixpoint lstrip (s : string) : string :=
  match s with
  | EmptyString => EmptyString
  | String a r => if is_white a then lstrip r else s
  end.

Fixpoint rstrip (s : string) : string :=
  match s with
  | EmptyString => EmptyString
  | String a r =>
      match rstrip r with
      | EmptyString => if is_white a then EmptyString else String a EmptyString
      | r' => String a r'
      end
  end.

Definition strip (s : string) : string := rstrip (lstrip s).

(** ** Frames *)

Definition column := list cell.
Definition frame := list (string * column).

Definition columns (df : frame) : list string := df.*1.

(** [df.rename(columns=f)] with a function. *)
Definition rename_with (f : string -> string) (df : frame) : frame :=
  prod_map f id <$> df.

(** [df.rename(columns={old: new})]: every column carrying [old] is
    relabelled. *)
Definition rename (old new : string) (df : frame) : frame :=
  rename_with (fun c => if decide (c = old) then new else c) df.

(** [df[label]], a [KeyError] when the label is absent. *)
Fixpoint getitem (df : frame) (label : string) : result column :=
  match df with
  | [] => Err (KeyError label)
  | (c, v) :: rest => if decide (c = label) then Ok v else getitem rest label
  end.

(** [df[label] = v]: replaces the column in place, or appends a new one. *)
Definition setitem (df : frame) (label : string) (v : column) : frame :=
  if decide (label ∈ columns df)
  then (fun p => if decide (p.1 = label) then (p.1, v) else p) <$> df
  else df ++ [(label, v)].

(** ** Column resolution and coercions of the loader *)

Definition expected : list string :=
  ["Tanggal"; "Kategori"; "Nama_Item"; "Jumlah"; "Total_Penjualan"]%string.

(** [{c.lower(): c for c in df.columns}]: a later column overwrites an
    earlier one under the same key. *)
Definition lower_map_of (cols : list string) : gmap string string :=
  foldl (fun m c => <[lower c := c]> m) ∅ cols.

(** One turn of the loop over [expected]. *)
Definition resolve_one (lower_map : gmap string string) (df : frame)
    (col : string) : frame :=
  if decide (col ∈ columns df) then df
  else match lower_map !! lower col with
       | Some c => rename c col df
       | None => df
       end.

Definition resolve_columns (df : frame) : frame :=
  foldl (resolve_one (lower_map_of (columns df))) df expected.

(** Truncation toward zero, what [astype(int)] does to a float. *)
Definition trunc (q : Q) : Z := Z.quot (Qnum q) (Zpos (Qden q)).

Definition fillna (v : cell) (c : cell) : cell :=
  match c with
  | Null => v
  | _ => c
  end.

Definition astype_int_cell (c : cell) : result cell :=
  match c with
  | Int z => Ok (Int z)
  | Num q => Ok (Int (trunc q))
  | Null => Err (ValueError "cannot convert NA to integer")
  | Str _ => Err (ValueError "invalid literal for int()")
  | Ts _ => Err (ValueError "cannot astype a datetimelike to int")
  end.

Fixpoint astype_int (col : column) : result column :=
  match col with
  | [] => Ok []
  | c :: rest =>
      c' ← astype_int_cell c;
      rest' ← astype_int rest;
      mret (c' :: rest')
  end.

Definition sentinel : string := "Tidak diketahui".

(** ** The filter: boolean masks over columns *)

(** A bound of the date range as the script holds it: a calendar date from
    the date picker, or the timestamp (possibly missing) that
    [df["Tanggal"].min()] and [.max()] return. *)
Inductive pydate :=
  | Date (day : Z)
  | Stamp (t : option Z).

Definition ns_per_day : Z := 86400000000000.

(** [pd.to_datetime] on one bound: a date becomes its midnight. *)
Definition to_datetime (d : pydate) : option Z :=
  match d with
  | Date day => Some (day * ns_per_day)
  | Stamp t => t
  end.

(** Comparisons with a missing value on either side are false. *)
Definition cell_ge (b : option Z) (c : cell) : bool :=
  match c, b with
  | Ts t, Some s => bool_decide (s ≤ t)
  | _, _ => false
  end.

Definition cell_le (b : option Z) (c : cell) : bool :=
  match c, b with
  | Ts t, Some e => bool_decide (t ≤ e)
  | _, _ => false
  end.

Definition cell_eq_str (s : string) (c : cell) : bool :=
  match c with
  | Str s' => bool_decide (s' = s)
  | _ => false
  end.

Definition cell_isin (items : list string) (c : cell) : bool :=
  match c with
  | Str s => bool_decide (s ∈ items)
  | _ => false
  end.

Definition series_ge (col : column) (b : option Z) : list bool := cell_ge b <$> col.
Definition series_le (col : column) (b : option Z) : list bool := cell_le b <$> col.
Definition series_eq (col : column) (s : string) : list bool := cell_eq_str s <$> col.
Definition series_isin (col : column) (items : list string) : list bool :=
  cell_isin items <$> col.
Definition series_and (m1 m2 : list bool) : list bool := zip_with andb m1 m2.

(** [Series.min()] and [Series.max()] of a datetime column skip the missing
    entries and are missing themselves when nothing is left. *)
Definition ts_values (col : column) : list Z :=
  omap (fun c => match c with Ts t => Some t | _ => None end) col.

Definition series_min (col : column) : option Z :=
  match ts_values col with
  | [] => None
  | t :: rest => Some (foldl Z.min t rest)
  end.

Definition series_max (col : column) : option Z :=
  match ts_values col with
  | [] => None
  | t :: rest => Some (foldl Z.max t rest)
  end.

(** [start_date, end_date = date_range if len(date_range) == 2 else
    (min_date, max_date)] *)
Definition unpack_range (date_range : list Z) (min_date max_date : option Z)
    : pydate * pydate :=
  match date_range with
  | [a; b] => (Date a, Date b)
  | _ => (Stamp min_date, Stamp max_date)
  end.

(** The three steps that build [mask]. *)
Definition mask_tanggal (df : frame) (start_date end_date : pydate)
    : result (list bool) :=
  lo ← getitem df "Tanggal";
  hi ← getitem df "Tanggal";
  mret (series_and (series_ge lo (to_datetime start_date))
                   (series_le hi (to_datetime end_date))).

Definition mask_kategori (df : frame) (selected_kat : string)
    (mask : list bool) : result (list bool) :=
  if decide (selected_kat ≠ "Semua") then
    kategori ← getitem df "Kategori";
    mret (series_and mask (series_eq kategori selected_kat))
  else mret mask.

(** [if selected_items:] an empty list is falsy. *)
Definition truthy {A} (l : list A) : bool :=
  match l with
  | [] => false
  | _ :: _ => true
  end.

Definition mask_items (df : frame) (selected_items : list string)
    (mask : list bool) : result (list bool) :=
  if truthy selected_items then
    nama ← getitem df "Nama_Item";
    mret (series_and mask (series_isin nama selected_items))
  else mret mask.

Definition build_mask (df : frame) (start_date end_date : pydate)
    (selected_kat : string) (selected_items : list string)
    : result (list bool) :=
  mask ← mask_tanggal df start_date end_date;
  mask ← mask_kategori df selected_kat mask;
  mask_items df selected_items mask.

(** Boolean indexing of one column, and of the frame: [df[mask]]. *)
Fixpoint select {A} (mask : list bool) (col : list A) : list A :=
  match mask, col with
  | b :: mask', x :: col' =>
      if b then x :: select mask' col' else select mask' col'
  | _, _ => []
  end.

Definition select_rows (mask : list bool) (df : frame) : frame :=
  prod_map id (select mask) <$> df.

(** The filter of the script as one function. *)
Definition apply_filter (df : frame) (start_date end_date : pydate)
    (selected_kat : string) (selected_items : list string) : result frame :=
  mask ← build_mask df start_date end_date selected_kat selected_items;
  mret (select_rows mask df).

(** ** Rows of a frame *)

Definition row := list (string * cell).

Definition heads (df : frame) : row := prod_map id (hd Null) <$> df.
Definition tails (df : frame) : frame := prod_map id (@tl cell) <$> df.

Fixpoint rows_n (n : nat) (df : frame) : list row :=
  match n with
  | O => []
  | S n' => heads df :: rows_n n' (tails df)
  end.

Definition nrows (df : frame) : nat :=
  match df with
  | [] => O
  | (_, col) :: _ => length col
  end.

Definition rows (df : frame) : list row := rows_n (nrows df) df.

(** All columns have [n] entries. *)
Definition wf_frame (n : nat) (df : frame) : Prop :=
  Forall (fun p => length p.2 = n) df.

(** The entry of a row under a label (the first one, as [getitem]). *)
Fixpoint row_get (r : row) (label : string) : cell :=
  match r with
  | [] => Null
  | (c, v) :: rest => if decide (c = label) then v else row_get rest label
  end.

(** ** Aggregates: [groupby(key)[measure].sum().reset_index()] *)

(** The number a cell adds to a sum; a missing entry is skipped. *)
Definition cell_num (c : cell) : Q :=
  match c with
  | Int z => inject_Z z
  | Num q => q
  | _ => 0%Q
  end.

(** The running table of groups, in order of first appearance. *)
Fixpoint add_to (k : cell) (v : Q) (acc : list (cell * Q)) : list (cell * Q) :=
  match acc with
  | [] => [(k, v)]
  | (k', s) :: rest =>
      if decide (k' = k) then (k', (s + v)%Q) :: rest
      else (k', s) :: add_to k v rest
  end.

(** One row of the pass over the table; rows with a missing key are
    dropped. *)
Definition accumulate_row (acc : list (cell * Q)) (kv : cell * cell)
    : list (cell * Q) :=
  match kv.1 with
  | Null => acc
  | k => add_to k (cell_num kv.2) acc
  end.

Definition accumulate (keys vals : column) : list (cell * Q) :=
  foldl accumulate_row [] (zip keys vals).

(** The order in which [groupby] lists its groups: by key. *)
Definition cell_leb (a b : cell) : bool :=
  match a, b with
  | Null, _ => true
  | _, Null => false
  | Str s, Str s' => String.leb s s'
  | Str _, _ => false
  | _, Str _ => true
  | Ts t, Ts t' => bool_decide (t ≤ t')
  | Ts _, _ => false
  | _, Ts _ => true
  | x, y => Qle_bool (cell_num x) (cell_num y)
  end.

Definition key_le (a b : cell * Q) : Prop := cell_leb a.1 b.1 = true.

#[global] Instance key_le_dec : RelDecision key_le.
Proof. intros a b. unfold key_le. apply _. Defined.

Definition groupby_sum (keys vals : column) : list (cell * Q) :=
  merge_sort key_le (accumulate keys vals).

Definition aggregate_sum (df : frame) (group_key measure : string)
    : result (list (cell * Q)) :=
  keys ← getitem df group_key;
  vals ← getitem df measure;
  mret (groupby_sum keys vals).

(** ** Top N: [sort_values(measure, ascending=False).head(n)] *)

Definition measure_ge (a b : cell * Q) : Prop := (b.2 <= a.2)%Q.

Definition head {A} (n : nat) (l : list A) : list A := take n l.

(** ** The display table: ["{:,.0f}".format] *)

(** Rounding to the nearest integer, halves to the even one. *)
Definition round_half_even (q : Q) : Z :=
  let f := Qfloor q in
  match Qcompare (q - inject_Z f) (1 # 2) with
  | Lt => f
  | Gt => f + 1
  | Eq => if Z.even f then f else f + 1
  end.

(** Commas between groups of three digits, on the reversed digits. *)
Fixpoint group3 (fuel : nat) (rev_digits : list ascii) : list ascii :=
  match fuel, rev_digits with
  | S fuel', a :: b :: c :: ((_ :: _) as rest) =>
      a :: b :: c :: ","%char :: group3 fuel' rest
  | _, _ => rev_digits
  end.

Definition thousands (digits : string) : string :=
  let l := reverse (list_ascii_of_string digits) in
  string_of_list_ascii (reverse (group3 (length l) l)).

Definition format_number (q : Q) : string :=
  ((if Qle_bool 0 q then "" else "-")
   +:+ thousands (pretty (Z.abs (round_half_even q))))%string.

Definition format_cell (c : cell) : result cell :=
  match c with
  | Int z => Ok (Str (format_number (inject_Z z)))
  | Num q => Ok (Str (format_number q))
  | Null => Ok (Str "nan")
  | Ts _ => Ok (Str ",.0f")
  | Str _ => Err (ValueError "Unknown format code 'f' for object of type 'str'")
  end.

Fixpoint series_map (f : cell -> result cell) (col : column) : result column :=
  match col with
  | [] => Ok []
  | c :: rest =>
      c' ← f c;
      rest' ← series_map f rest;
      mret (c' :: rest')
  end.

(** ** The store and the page *)

Definition loc := positive.

(** What the page shows, in order. *)
Inductive event :=
  | Title (s : string)
  | Markdown (s : string)
  | ErrorBox (s : string)
  | Subheader (s : string)
  | BarChart (data : list (cell * Q))
  | LineChart (data : list (cell * Q))
  | PieChart (data : list (cell * Q))
  | ScatterPlot (data : frame)
  | Histogram (data : frame) (nbins : nat)
  | DataTable (data : frame).

Record state := State {
  heap : gmap loc frame;
  page : list event;
}.

(** A run ends normally, at [st.stop()], or with an uncaught exception. *)
Inductive outcome (A : Type) :=
  | Done (a : A) (s : state)
  | Stopped (s : state)
  | Raised (e : error) (s : state).
Arguments Done {A} a s.
Arguments Stopped {A} s.
Arguments Raised {A} e s.

Definition script (A : Type) : Type := state -> outcome A.

#[global] Instance script_ret : MRet script := fun A a s => Done a s.
#[global] Instance script_bind : MBind script := fun A B f m s =>
  match m s with
  | Done a s' => f a s'
  | Stopped s' => Stopped s'
  | Raised e s' => Raised e s'
  end.

Definition emit (e : event) : script unit :=
  fun s => Done tt (State (heap s) (page s ++ [e])).

Definition st_stop {A} : script A := fun s => Stopped s.

Definition raise {A} (e : error) : script A := fun s => Raised e s.

(** A pandas call whose failure is not caught. *)
Definition lift {A} (r : result A) : script A :=
  match r with
  | Ok a => mret a
  | Err e => raise e
  end.

(** Binding a name to a newly built frame. *)
Definition alloc (df : frame) : script loc :=
  fun s => let l := fresh (dom (heap s)) in
           Done l (State (<[l := df]> (heap s)) (page s)).

Definition load (l : loc) : script frame :=
  fun s => match heap s !! l with
           | Some df => Done df s
           | None => Raised (KeyError "unbound name") s
           end.

(** Column assignment through a name: the frame behind it changes. *)
Definition store_column (l : loc) (label : string) (v : column) : script unit :=
  fun s => match heap s !! l with
           | Some df => Done tt (State (<[l := setitem df label v]> (heap s)) (page s))
           | None => Raised (KeyError "unbound name") s
           end.

Definition error_str (e : error) : string :=
  match e with
  | FileError msg => msg
  | KeyError label => ("'" +:+ label +:+ "'")%string
  | ValueError msg => msg
  end.

(** What the user has set in the sidebar. *)
Record widgets := Widgets {
  date_range : list Z;
  selected_kat : string;
  selected_items : list string;
  top_n_slider : nat;
}.

(** ** The script *)

Section Script.

(** The world outside the script: the spreadsheet reader and pandas'
    parsers and printer for single values. *)
Variable read_excel : string -> result frame.
Variable strptime : string -> option Z.
Variable parse_number : string -> option Q.
Variable repr : cell -> string.

(** [sort_values] is called with its default [kind], for which pandas
    promises a sorted rearrangement and nothing about ties. *)
Variable sort_values_desc : list (cell * Q) -> list (cell * Q).

(** *** The loader, [load_data] *)

(** [pd.to_datetime(..., errors="coerce")] on one entry. *)
Definition to_datetime_cell (c : cell) : cell :=
  match c with
  | Null => Null
  | Ts t => Ts t
  | Int z => Ts z
  | Num q => Ts (trunc q)
  | Str s => match strptime s with
             | Some t => Ts t
             | None => Null
             end
  end.

(** [pd.to_numeric(..., errors="coerce")] on one entry. *)
Definition to_numeric_cell (c : cell) : cell :=
  match c with
  | Null => Null
  | Int z => Int z
  | Num q => Num q
  | Str s => match parse_number s with
             | Some q => Num q
             | None => Null
             end
  | Ts _ => Null
  end.

(** [astype(str)] on one entry. *)
Definition astype_str_cell (c : cell) : cell :=
  match c with
  | Str s => Str s
  | _ => Str (repr c)
  end.

Definition load_data (path : string) : result frame :=
  df ← read_excel path;
  let df := rename_with strip df in
  let df := resolve_columns df in
  tanggal ← getitem df "Tanggal";
  let df := setitem df "Tanggal" (to_datetime_cell <$> tanggal) in
  jumlah ← getitem df "Jumlah";
  jumlah ← astype_int (fillna (Int 0) <$> (to_numeric_cell <$> jumlah));
  let df := setitem df "Jumlah" jumlah in
  total ← getitem df "Total_Penjualan";
  let df := setitem df "Total_Penjualan"
              (fillna (Int 0) <$> (to_numeric_cell <$> total)) in
  kategori ← getitem df "Kategori";
  let df := setitem df "Kategori"
              (astype_str_cell <$> (fillna (Str sentinel) <$> kategori)) in
  nama ← getitem df "Nama_Item";
  let df := setitem df "Nama_Item"
              (astype_str_cell <$> (fillna (Str sentinel) <$> nama)) in
  mret df.


(** *** Top N *)

Definition top_n (rows : list (cell * Q)) (n : nat) : list (cell * Q) :=
  head n (sort_values_desc rows).

(** *** The page *)

(** [try: df = load_data() except Exception as e: st.error(...); st.stop()] *)
Definition load_or_stop : script loc :=
  fun s => match load_data "dataset_clean.xlsx" with
           | Ok df => alloc df s
           | Err e =>
               (emit (ErrorBox ("Error membaca dataset: " +:+ error_str e)%string) ;;
                st_stop) s
           end.

(** [mask = ...; filtered = df[mask]] *)
Definition filter_step (df : loc) (w : widgets) : script loc :=
  d ← load df;
  tanggal ← lift (getitem d "Tanggal");
  let '(start_date, end_date) :=
    unpack_range (date_range w) (series_min tanggal) (series_max tanggal) in
  mask ← lift (build_mask d start_date end_date (selected_kat w) (selected_items w));
  filtered ← alloc (select_rows mask d);
  f ← load filtered;
  emit (Markdown ("**Jumlah data setelah filter: " +:+ pretty (nrows f)
                  +:+ " baris**")%string) ;;
  mret filtered.

(** The five charts. *)
Definition charts_step (filtered : loc) (w : widgets) : script unit :=
  f ← load filtered;
  emit (Subheader "Total Penjualan per Kategori") ;;
  bar ← lift (aggregate_sum f "Kategori" "Total_Penjualan");
  emit (BarChart bar) ;;
  emit (Subheader "Tren Penjualan Harian") ;;
  line ← lift (aggregate_sum f "Tanggal" "Total_Penjualan");
  emit (LineChart line) ;;
  emit (Subheader ("Top " +:+ pretty (top_n_slider w)
                   +:+ " Item Berdasarkan Total Penjualan")%string) ;;
  pie ← lift (aggregate_sum f "Nama_Item" "Total_Penjualan");
  let pie := top_n pie (top_n_slider w) in
  emit (PieChart pie) ;;
  emit (Subheader "Scatter Plot: Jumlah vs Total Penjualan") ;;
  emit (ScatterPlot f) ;;
  emit (Subheader "Distribusi Total Penjualan") ;;
  emit (Histogram f 20) ;;
  mret tt.

(** [display_df = filtered.copy()], then the amount column of the copy is
    replaced by its formatted texts. *)
Definition table_step (filtered : loc) : script loc :=
  emit (Subheader "Tabel Data") ;;
  f ← load filtered;
  display_df ← alloc f;
  d ← load display_df;
  total ← lift (getitem d "Total_Penjualan");
  texts ← lift (series_map format_cell total);
  store_column display_df "Total_Penjualan" texts ;;
  d ← load display_df;
  emit (DataTable d) ;;
  mret display_df.

Definition main (w : widgets) : script unit :=
  emit (Title "Dashboard Penjualan Coffeeshop") ;;
  emit (Markdown "Dashboard interaktif untuk menganalisis penjualan makanan dan minuman.") ;;
  df ← load_or_stop;
  filtered ← filter_step df w;
  charts_step filtered w ;;
  table_step filtered ;;
  emit (Markdown "---") ;;
  emit (Markdown "**Catatan:**") ;;
  mret tt.

End Script.

(** ** Tables: what a loaded frame looks like *)

Definition is_date (c : cell) : Prop :=
  match c with
  | Null | Ts _ => True
  | _ => False
  end.

Definition is_text (c : cell) : Prop :=
  match c with
  | Str _ => True
  | _ => False
  end.

Definition is_int (c : cell) : Prop :=
  match c with
  | Int _ => True
  | _ => False
  end.

Definition is_number (c : cell) : Prop :=
  match c with
  | Int _ | Num _ => True
  | _ => False
  end.

Definition has_column (df : frame) (label : string) (P : cell -> Prop) : Prop :=
  exists col, getitem df label = Ok col /\ Forall P col.

(** The five canonical columns with their types, all of one length. *)
Record is_table (df : frame) : Prop := IsTable {
  table_wf : wf_frame (nrows df) df;
  table_tanggal : has_column df "Tanggal" is_date;
  table_kategori : has_column df "Kategori" is_text;
  table_nama_item : has_column df "Nama_Item" is_text;
  table_jumlah : has_column df "Jumlah" is_int;
  table_total : has_column df "Total_Penjualan" is_number;
}.








(** ** The filter, row by row *)

(** What each predicate of the filter says about one row. *)
Definition row_in_range (start_date end_date : pydate) (r : row) : bool :=
  match row_get r "Tanggal", to_datetime start_date, to_datetime end_date with
  | Ts t, Some s, Some e => bool_decide (s ≤ t ≤ e)
  | _, _, _ => false
  end.

Definition row_has_kategori (selected_kat : string) (r : row) : bool :=
  bool_decide (selected_kat = "Semua"%string)
  || cell_eq_str selected_kat (row_get r "Kategori").

(** Membership in the chosen items, an empty choice matching nothing. *)
Definition row_isin (selected_items : list string) (r : row) : bool :=
  cell_isin selected_items (row_get r "Nama_Item").

(** The item predicate as the script applies it: skipped when the choice
    is empty. *)
Definition row_has_item (selected_items : list string) (r : row) : bool :=
  negb (truthy selected_items) || row_isin selected_items r.

Definition row_matches (start_date end_date : pydate) (selected_kat : string)
    (selected_items : list string) (r : row) : bool :=
  row_in_range start_date end_date r
  && row_has_kategori selected_kat r
  && row_has_item selected_items r.

Definition has_date (r : row) : bool :=
  match row_get r "Tanggal" with
  | Null => false
  | _ => true
  end.

(** The number of rows a mask keeps. *)
Definition ntrue (mask : list bool) : nat := length (select mask mask).

(** The filter with the category and the item step in the other order. *)
Definition apply_filter_swapped (df : frame) (start_date end_date : pydate)
    (selected_kat : string) (selected_items : list string) : result frame :=
  mask ← mask_tanggal df start_date end_date;
  mask ← mask_items df selected_items mask;
  mask ← mask_kategori df selected_kat mask;
  mret (select_rows mask df).

(** ** Aggregates, row by row *)

(** The total of the measure over the rows that carry the key [k], the
    rows given as pairs of key and measure. *)
Definition group_total (k : cell) (kvs : list (cell * cell)) : Q :=
  foldr (fun kv acc => if decide (kv.1 = k) then (cell_num kv.2 + acc)%Q else acc)
        0%Q kvs.

(** The two sales of the worked example: a latte and a croissant sold on
    2024-01-01. *)
Definition two_sales : frame :=
  [("Tanggal", [Ts 1704067200000000000; Ts 1704067200000000000]);
   ("Kategori", [Str "Coffee"; Str "Food"]);
   ("Nama_Item", [Str "Latte"; Str "Croissant"]);
   ("Jumlah", [Int 2; Int 1]);
   ("Total_Penjualan", [Int 50000; Int 25000])]%string.

(** What the pass over the rows has built after the rows [l]. *)
Definition groups_of (l : list (cell * cell)) (acc : list (cell * Q)) : Prop :=
  NoDup acc.*1 /\
  (forall k, k ∈ acc.*1 <-> k ≠ Null /\ k ∈ l.*1) /\
  (forall k s, (k, s) ∈ acc -> (s == group_total k l)%Q).

(** ** Top N: ties *)


#[global] Instance measure_ge_dec : RelDecision measure_ge.
Proof.
  intros a b. unfold measure_ge.
  destruct (Qle_bool b.2 a.2) eqn:E.
  - left. by apply Qle_bool_iff.
  - right. intros H. apply Qle_bool_iff in H. congruence.
Defined.

(** A sort that meets what pandas promises for the default [kind] and
    lists equal measures last-come first. *)
Definition sort_ties_reversed (l : list (cell * Q)) : list (cell * Q) :=
  merge_sort measure_ge (reverse l).

(** ** Column resolution: a sheet with two date headers *)

(** Two headers that differ only by case, with different dates below. *)
Definition two_date_headers : frame :=
  [("tanggal", [Ts 1704067200000000000]);
   ("TANGGAL", [Ts 1706745600000000000]);
   ("Kategori", [Str "Coffee"]);
   ("Nama_Item", [Str "Latte"]);
   ("Jumlah", [Int 2]);
   ("Total_Penjualan", [Int 50000])]%string.

(** The loop over [expected] before the turn of [col], on a sheet whose
    header [c] is the one to be renamed: [col] is not a header yet, [c] is
    one, and no other header equals [col] up to case. *)
Definition before_turn (c col : string) (df : frame) : Prop :=
  (col ∉ columns df) /\ (c ∈ columns df) /\
  forall x, x ∈ columns df -> lower x = lower col -> x = c.

(** The same sheet read under one name, and with the first header already
    canonical under another. *)
Definition two_headers_read_excel (path : string) : result frame :=
  if decide (path = "lowercase.xlsx"%string) then Ok two_date_headers
  else Ok (rename "tanggal" "Tanggal" two_date_headers).

(** ** A small spreadsheet to run the script on *)

(** Three sales, the second one a return booked with a negative quantity
    and amount, the third one with empty cells. The date header has blanks
    around it and two headers differ from the canonical ones by case. *)
Definition sample_sheet : frame :=
  [(" Tanggal ", [Ts 1704067200000000000; Ts 1704153600000000000; Null]);
   ("kategori", [Str "Coffee"; Str "Food"; Null]);
   ("Nama_Item", [Str "Latte"; Str "Croissant"; Str "Latte"]);
   ("JUMLAH", [Int 2; Int (-3); Null]);
   ("Total_Penjualan", [Int 50000; Num (-75000 # 1); Str "n/a"])]%string.

Definition sample_table : frame :=
  [("Tanggal", [Ts 1704067200000000000; Ts 1704153600000000000; Null]);
   ("Kategori", [Str "Coffee"; Str "Food"; Str "Tidak diketahui"]);
   ("Nama_Item", [Str "Latte"; Str "Croissant"; Str "Latte"]);
   ("Jumlah", [Int 2; Int (-3); Int 0]);
   ("Total_Penjualan", [Int 50000; Num (-75000 # 1); Int 0])]%string.

Definition sample_read_excel (path : string) : result frame :=
  if decide (path = "dataset_clean.xlsx"%string) then Ok sample_sheet
  else Err (FileError "No such file or directory").

Definition sample_strptime (s : string) : option Z := None.
Definition sample_parse_number (s : string) : option Q := None.
Definition sample_repr (c : cell) : string := "nan".


Definition failing_read_excel (path : string) : result frame :=
  Err (FileError "No such file or directory").


(** A store in which the loaded table is bound. *)
Definition sample_state : state := State {[ 1%positive := sample_table ]} [].

(** ** The loader: which column is asked for first *)



(** A header and the header it has after the loop over [expected]. *)
Definition relabelled (old new : string) : Prop :=
  lower new = lower old /\ (new = old \/ new ∈ expected).

(** A header without white space at its start. *)
Definition no_lead (s : string) : Prop :=
  match s with
  | EmptyString => True
  | String a _ => is_white a = false
  end.

(** ** The sidebar: what the widgets are given *)

(** [Series.unique()]: the values in order of first appearance. *)
Fixpoint unique (col : column) : list cell :=
  match col with
  | [] => []
  | c :: rest => c :: List.filter (fun x => negb (bool_decide (x = c))) (unique rest)
  end.

(** The texts of a column; after [load_data] the category and the item
    column hold nothing else. *)
Definition text_of (c : cell) : option string :=
  match c with
  | Str s => Some s
  | _ => None
  end.

Definition texts (col : column) : list string := omap text_of col.

(** [sorted(...)] on texts. *)
Definition sorted (l : list string) : list string := merge_sort String.le l.

(** [kategori_list = ["Semua"] + sorted(df["Kategori"].unique())] *)
Definition kategori_list (df : frame) : result (list string) :=
  kategori ← getitem df "Kategori";
  mret ("Semua"%string :: sorted (texts (unique kategori))).

(** [item_list = sorted(df["Nama_Item"].unique())] *)
Definition item_list (df : frame) : result (list string) :=
  nama ← getitem df "Nama_Item";
  mret (sorted (texts (unique nama))).

(** ** Sums and digits *)



Definition is_digit (a : ascii) : Prop :=
  (48 <= nat_of_ascii a <= 57)%nat.

Definition without_commas (l : list ascii) : list ascii :=
  List.filter (fun a => negb (bool_decide (a = ","%char))) l.

(** ** More sheets to run the script on *)

(** The sample sheet under one name and with trimmed headers under
    another. *)
Definition trimmed_read_excel (path : string) : result frame :=
  if decide (path = "trimmed.xlsx"%string) then Ok (rename_with strip sample_sheet)
  else Ok sample_sheet.

(** A sheet that has no quantity column under any spelling. *)
Definition sheet_without_jumlah : frame :=
  [("Tanggal", [Ts 1704067200000000000]);
   ("Kategori", [Str "Coffee"]);
   ("Nama_Item", [Str "Latte"]);
   ("Total_Penjualan", [Int 50000])]%string.

Definition incomplete_read_excel (path : string) : result frame :=
  Ok sheet_without_jumlah.

(** A table with one sale at midnight of 2024-01-02 and one at 13:00 of
    the same day. *)
Definition late_sale_table : frame :=
  [("Tanggal", [Ts 1704153600000000000; Ts 1704200400000000000]);
   ("Kategori", [Str "Coffee"; Str "Coffee"]);
   ("Nama_Item", [Str "Latte"; Str "Mocha"]);
   ("Jumlah", [Int 1; Int 1]);
   ("Total_Penjualan", [Int 25000; Int 30000])]%string.

Definition late_sale_row : row :=
  [("Tanggal", Ts 1704200400000000000); ("Kategori", Str "Coffee");
   ("Nama_Item", Str "Mocha"); ("Jumlah", Int 1);
   ("Total_Penjualan", Int 30000)]%string.

(** * Properties *)

(** ** Frames: reading and assigning columns *)


Lemma getitem_Ok_elem_of (df : frame) (label : string) (col : column) :
  getitem df label = Ok col -> label ∈ columns df.
Proof.
  induction df as [|[c v] df IH]; simpl; [discriminate|].
  destruct (decide (c = label)) as [->|Hne]; intros H.
  - apply elem_of_cons. by left.
  - apply elem_of_cons. right. by apply IH.
Qed.

Lemma getitem_app_fresh (df : frame) (label : string) (v : column) :
  label ∉ columns df -> getitem (df ++ [(label, v)]) label = Ok v.
Proof.
  induction df as [|[c w] df IH]; simpl; intros H.
  - by rewrite decide_True.
  - apply not_elem_of_cons in H as [H1 H2].
    rewrite decide_False by congruence. by apply IH.
Qed.

Lemma getitem_app_ne (df : frame) (l l' : string) (v : column) :
  l ≠ l' -> getitem (df ++ [(l, v)]) l' = getitem df l'.
Proof.
  intros Hne. induction df as [|[c w] df IH]; simpl.
  - by rewrite decide_False.
  - destruct (decide (c = l')); [done|exact IH].
Qed.

Lemma getitem_setitem_eq (df : frame) (label : string) (v : column) :
  getitem (setitem df label v) label = Ok v.
Proof.
  unfold setitem. destruct (decide (label ∈ columns df)) as [Hin|Hout].
  - induction df as [|[c w] df IH]; simpl in *; [inversion Hin|].
    destruct (decide (c = label)) as [->|Hne]; simpl.
    + by rewrite decide_True.
    + rewrite decide_False by done. apply IH.
      apply elem_of_cons in Hin as [Hin|Hin]; [congruence|exact Hin].
  - by apply getitem_app_fresh.
Qed.

Lemma getitem_setitem_ne (df : frame) (l l' : string) (v : column) :
  l ≠ l' -> getitem (setitem df l v) l' = getitem df l'.
Proof.
  intros Hne. unfold setitem. destruct (decide (l ∈ columns df)) as [Hin|Hout].
  - clear Hin. induction df as [|[c w] df IH]; simpl; [done|].
    destruct (decide (c = l)) as [->|Hc]; simpl.
    + rewrite !decide_False by done. exact IH.
    + destruct (decide (c = l')); [done|exact IH].
  - by apply getitem_app_ne.
Qed.

Lemma wf_frame_getitem (n : nat) (df : frame) (label : string) (col : column) :
  wf_frame n df -> getitem df label = Ok col -> length col = n.
Proof.
  intros Hwf. induction Hwf as [|[c v] df Hx Hwf IH]; simpl; [discriminate|].
  destruct (decide (c = label)); [|exact IH].
  intros [= <-]. exact Hx.
Qed.

Lemma wf_frame_setitem (n : nat) (df : frame) (label : string) (v : column) :
  wf_frame n df -> length v = n -> wf_frame n (setitem df label v).
Proof.
  intros Hwf Hv. unfold setitem, wf_frame in *.
  destruct (decide (label ∈ columns df)).
  - apply Forall_fmap. eapply Forall_impl; [exact Hwf|].
    intros [c w] Hw; simpl in *. by destruct (decide (c = label)).
  - apply Forall_app. split; [exact Hwf|]. by repeat constructor.
Qed.

Lemma wf_frame_rename_with (n : nat) (f : string -> string) (df : frame) :
  wf_frame n df -> wf_frame n (rename_with f df).
Proof.
  unfold wf_frame, rename_with. intros H. apply Forall_fmap.
  eapply Forall_impl; [exact H|]. by intros [c w].
Qed.

Lemma wf_frame_resolve_columns (n : nat) (df : frame) :
  wf_frame n df -> wf_frame n (resolve_columns df).
Proof.
  unfold resolve_columns. generalize (lower_map_of (columns df)).
  intros m. revert df. induction expected as [|e es IH]; simpl; [done|].
  intros df Hwf. apply IH. unfold resolve_one.
  destruct (decide (e ∈ columns df)); [done|].
  destruct (m !! lower e); [|done]. by apply wf_frame_rename_with.
Qed.

Lemma astype_int_length (col col' : column) :
  astype_int col = Ok col' -> length col' = length col.
Proof.
  revert col'. induction col as [|c col IH]; simpl; intros col'.
  - by intros [= <-].
  - destruct (astype_int_cell c); simpl; [|discriminate].
    destruct (astype_int col); simpl; [|discriminate].
    intros [= <-]. simpl. f_equal. by apply IH.
Qed.

(** ** The loader *)


Lemma trunc_inject_Z (z : Z) : trunc (inject_Z z) = z.
Proof. unfold trunc. simpl. apply Z.quot_1_r. Qed.

Lemma Ok_inj {A} (a b : A) : Ok a = Ok b -> a = b.
Proof. by intros [= ->]. Qed.

Lemma result_bind_Ok {A B} (f : A -> result B) (a : A) : Ok a ≫= f = f a.
Proof. reflexivity. Qed.

Lemma result_bind_inv {A B} (f : A -> result B) (m : result A) (b : B) :
  m ≫= f = Ok b -> exists a, m = Ok a /\ f a = Ok b.
Proof. destruct m as [a|e]; [eauto|discriminate]. Qed.

Section LoaderProperties.

Variable read_excel : string -> result frame.
Variable strptime : string -> option Z.
Variable parse_number : string -> option Q.
Variable repr : cell -> string.


Lemma to_numeric_cell_fillna (c : cell) :
  is_number (fillna (Int 0) (to_numeric_cell parse_number c)) /\
  cell_num (fillna (Int 0) (to_numeric_cell parse_number c))
  = cell_num (to_numeric_cell parse_number c).
Proof. destruct c; simpl; try done. by destruct (parse_number s). Qed.

Lemma astype_int_numbers (col : column) :
  Forall is_number col ->
  astype_int col = Ok ((fun c => Int (trunc (cell_num c))) <$> col).
Proof.
  induction 1 as [|c col Hc _ IH]; simpl; [done|].
  rewrite IH. destruct c; simpl in *; try done.
  by rewrite trunc_inject_Z.
Qed.


(** [load_data] succeeds exactly when the file is read and the five
    canonical columns are there after resolution; the table is then the
    resolved frame with the five columns reassigned. *)
Lemma load_data_inv (path : string) (df : frame) :
  load_data read_excel strptime parse_number repr path = Ok df ->
  exists raw t0 j0 a0 k0 n0,
    let df0 := resolve_columns (rename_with strip raw) in
    let q c := Int (trunc (cell_num (to_numeric_cell parse_number c))) in
    let a c := fillna (Int 0) (to_numeric_cell parse_number c) in
    let t c := astype_str_cell repr (fillna (Str sentinel) c) in
    read_excel path = Ok raw /\
    getitem df0 "Tanggal" = Ok t0 /\
    getitem df0 "Jumlah" = Ok j0 /\
    getitem df0 "Total_Penjualan" = Ok a0 /\
    getitem df0 "Kategori" = Ok k0 /\
    getitem df0 "Nama_Item" = Ok n0 /\
    df = setitem (setitem (setitem (setitem (setitem df0
           "Tanggal" (to_datetime_cell strptime <$> t0))
           "Jumlah" (q <$> j0))
           "Total_Penjualan" (a <$> a0))
           "Kategori" (t <$> k0))
           "Nama_Item" (t <$> n0).
Proof.
  unfold load_data. intros H.
  apply result_bind_inv in H as (raw & Hraw & H). cbv zeta in H.
  set (df0 := resolve_columns (rename_with strip raw)) in *.
  apply result_bind_inv in H as (t0 & Ht & H).
  apply result_bind_inv in H as (j0 & Hj & H).
  rewrite getitem_setitem_ne in Hj by (intros [=]).
  rewrite astype_int_numbers, result_bind_Ok in H.
  2:{ rewrite <- list_fmap_compose. apply Forall_fmap, Forall_true.
      intros c. apply to_numeric_cell_fillna. }
  apply result_bind_inv in H as (a0 & Ha & H).
  rewrite !getitem_setitem_ne in Ha by (intros [=]).
  apply result_bind_inv in H as (k0 & Hk & H).
  rewrite !getitem_setitem_ne in Hk by (intros [=]).
  apply result_bind_inv in H as (n0 & Hn & H).
  rewrite !getitem_setitem_ne in Hn by (intros [=]).
  apply Ok_inj in H. subst df.
  exists raw, t0, j0, a0, k0, n0.
  cbv zeta. fold df0.
  split; [exact Hraw|]. split; [exact Ht|]. split; [exact Hj|].
  split; [exact Ha|]. split; [exact Hk|]. split; [exact Hn|].
  assert (Hq : (fun c => Int (trunc (cell_num c))) <$>
                 (fillna (Int 0) <$> (to_numeric_cell parse_number <$> j0))
               = (fun c => Int (trunc (cell_num (to_numeric_cell parse_number c))))
                 <$> j0).
  { rewrite <- !list_fmap_compose. apply list_fmap_ext. intros _ c _.
    unfold compose. do 2 f_equal. apply to_numeric_cell_fillna. }
  rewrite Hq. rewrite <- !list_fmap_compose. reflexivity.
Qed.

Lemma wf_frame_nrows (n : nat) (df : frame) (label : string) (col : column) :
  wf_frame n df -> getitem df label = Ok col -> nrows df = n.
Proof.
  intros Hwf Hget. destruct Hwf as [|[c v] df Hx _]; [discriminate|]. exact Hx.
Qed.



End LoaderProperties.

(** ** Failure of the load *)

Lemma result_bind_Err {A B} (f : A -> result B) (e : error) : Err e ≫= f = Err e.
Proof. reflexivity. Qed.

Section LoadFailure.

Variable read_excel : string -> result frame.
Variable strptime : string -> option Z.
Variable parse_number : string -> option Q.
Variable repr : cell -> string.
Variable sort_values_desc : list (cell * Q) -> list (cell * Q).

(** C6: when the file cannot be read, [load_data] fails with the reader's
    error and returns no table; the run of the page shows the error and
    ends at [st.stop()]: no frame is bound, and nothing after the error box
    is put on the page. *)
Theorem load_failure_stops (path : string) (e : error) (w : widgets) (s : state) :
  read_excel path = Err e ->
  load_data read_excel strptime parse_number repr path = Err e /\
  (path = "dataset_clean.xlsx"%string ->
   main read_excel strptime parse_number repr sort_values_desc w s
   = Stopped (State (heap s)
       (page s ++
        [Title "Dashboard Penjualan Coffeeshop";
         Markdown "Dashboard interaktif untuk menganalisis penjualan makanan dan minuman.";
         ErrorBox ("Error membaca dataset: " +:+ error_str e)%string]))).
Proof.
  intros Hread.
  assert (Hload : load_data read_excel strptime parse_number repr path = Err e).
  { unfold load_data. rewrite Hread. apply result_bind_Err. }
  split; [exact Hload|]. intros ->.
  unfold main, mbind, script_bind, emit, load_or_stop. rewrite Hload.
  unfold mbind, script_bind, emit, st_stop.
  cbv beta iota delta [heap page]. by rewrite <- !app_assoc.
Qed.

End LoadFailure.

(** ** Rows and columns *)

Lemma select_nil_r {A} (mask : list bool) : select mask (@nil A) = [].
Proof. by destruct mask as [|[] ?]. Qed.

Lemma select_length {A B} (mask : list bool) (l : list A) (k : list B) :
  length l = length k -> length (select mask l) = length (select mask k).
Proof.
  revert l k. induction mask as [|b mask IH]; intros [|x l] [|y k]; simpl;
    try done.
  intros [= H]. destruct b; simpl; auto.
Qed.

Lemma select_fmap {A} (p : A -> bool) (l : list A) :
  select (p <$> l) l = List.filter p l.
Proof.
  induction l as [|x l IH]; csimpl; [done|]. destruct (p x); by rewrite IH.
Qed.

Lemma wf_frame_tails (n : nat) (df : frame) :
  wf_frame (S n) df -> wf_frame n (tails df).
Proof.
  unfold wf_frame, tails. intros H. apply Forall_fmap.
  eapply Forall_impl; [exact H|]. intros [c [|x col]]; simpl; [done|].
  by intros [= ->].
Qed.

Lemma getitem_tails (df : frame) (label : string) (col : column) :
  getitem df label = Ok col -> getitem (tails df) label = Ok (tl col).
Proof.
  induction df as [|[c v] df IH]; simpl; [done|].
  destruct (decide (c = label)); [|exact IH]. by intros [= ->].
Qed.

Lemma row_get_heads (df : frame) (label : string) (col : column) :
  getitem df label = Ok col -> row_get (heads df) label = hd Null col.
Proof.
  induction df as [|[c v] df IH]; simpl; [done|].
  destruct (decide (c = label)); [|exact IH]. by intros [= ->].
Qed.

Lemma rows_n_column (n : nat) (df : frame) (label : string) (col : column) :
  wf_frame n df -> getitem df label = Ok col ->
  (fun r => row_get r label) <$> rows_n n df = col.
Proof.
  revert df col. induction n as [|n IH]; intros df col Hwf Hget.
  - apply (wf_frame_getitem _ _ _ _ Hwf) in Hget.
    by destruct col.
  - pose proof (wf_frame_getitem _ _ _ _ Hwf Hget) as Hlen.
    destruct col as [|x col]; [done|].
    change (rows_n (S n) df) with (heads df :: rows_n n (tails df)).
    rewrite fmap_cons, (row_get_heads _ _ _ Hget).
    rewrite (IH (tails df) col); [done|by apply wf_frame_tails|].
    by apply getitem_tails in Hget.
Qed.

Lemma select_rows_true (n : nat) (mask : list bool) (df : frame) :
  wf_frame (S n) df ->
  heads (select_rows (true :: mask) df) = heads df /\
  tails (select_rows (true :: mask) df) = select_rows mask (tails df).
Proof.
  unfold wf_frame, heads, tails, select_rows. intros Hwf.
  rewrite <- !list_fmap_compose. split.
  - apply Forall_fmap_ext_1. eapply Forall_impl; [exact Hwf|].
    by intros [c [|x col]].
  - apply Forall_fmap_ext_1. eapply Forall_impl; [exact Hwf|].
    by intros [c [|x col]].
Qed.

Lemma select_rows_false (n : nat) (mask : list bool) (df : frame) :
  wf_frame (S n) df ->
  select_rows (false :: mask) df = select_rows mask (tails df).
Proof.
  unfold wf_frame, tails, select_rows. intros Hwf.
  rewrite <- !list_fmap_compose.
  apply Forall_fmap_ext_1. eapply Forall_impl; [exact Hwf|].
  by intros [c [|x col]].
Qed.

Lemma rows_n_select_rows (n : nat) (mask : list bool) (df : frame) :
  wf_frame n df -> length mask = n ->
  rows_n (ntrue mask) (select_rows mask df) = select mask (rows_n n df).
Proof.
  revert n df. induction mask as [|b mask IH]; intros n df Hwf Hlen.
  - done.
  - destruct n as [|n]; [done|]. injection Hlen as Hlen.
    destruct b; unfold ntrue; simpl.
    + destruct (select_rows_true n mask df Hwf) as [-> ->].
      f_equal. apply IH; [by apply wf_frame_tails|done].
    + rewrite (select_rows_false n mask df Hwf).
      apply IH; [by apply wf_frame_tails|done].
Qed.

Lemma wf_frame_select_rows (n : nat) (mask : list bool) (df : frame) :
  wf_frame n df -> length mask = n ->
  wf_frame (ntrue mask) (select_rows mask df).
Proof.
  unfold wf_frame, select_rows, ntrue. intros Hwf Hlen. apply Forall_fmap.
  eapply Forall_impl; [exact Hwf|]. intros [c col]; simpl. intros Hc.
  apply select_length. congruence.
Qed.

Lemma getitem_select_rows (mask : list bool) (df : frame) (label : string)
    (col : column) :
  getitem df label = Ok col ->
  getitem (select_rows mask df) label = Ok (select mask col).
Proof.
  induction df as [|[c v] df IH]; simpl; [done|].
  destruct (decide (c = label)); [|exact IH]. by intros [= ->].
Qed.

Lemma rows_n_length (n : nat) (df : frame) : length (rows_n n df) = n.
Proof. revert df. induction n as [|n IH]; intros df; simpl; [done|]. by rewrite IH. Qed.

Lemma rows_length (df : frame) : length (rows df) = nrows df.
Proof. apply rows_n_length. Qed.

Lemma Forall_select {A} (P : A -> Prop) (mask : list bool) (l : list A) :
  Forall P l -> Forall P (select mask l).
Proof.
  intros H. revert mask. induction H as [|x l Hx _ IH]; intros [|[] mask];
    simpl; auto.
Qed.

Lemma zip_with_fmap_same {A B C D} (f : B -> C -> D) (g : A -> B) (h : A -> C)
    (l : list A) :
  zip_with f (g <$> l) (h <$> l) = (fun x => f (g x) (h x)) <$> l.
Proof. induction l as [|x l IH]; csimpl; [done|]. by rewrite IH. Qed.

(** ** The filter *)

Lemma is_table_select_rows (mask : list bool) (df : frame) :
  is_table df -> length mask = nrows df -> is_table (select_rows mask df).
Proof.
  intros [Hwf (t & Ht & Pt) (k & Hk & Pk) (i & Hi & Pi) (j & Hj & Pj)
          (a & Ha & Pa)] Hlen.
  pose proof (wf_frame_select_rows _ mask df Hwf Hlen) as Hwf'.
  split.
  - by rewrite (wf_frame_nrows _ _ _ _ Hwf' (getitem_select_rows mask _ _ _ Ht)).
  - exists (select mask t). split; [by apply getitem_select_rows|by apply Forall_select].
  - exists (select mask k). split; [by apply getitem_select_rows|by apply Forall_select].
  - exists (select mask i). split; [by apply getitem_select_rows|by apply Forall_select].
  - exists (select mask j). split; [by apply getitem_select_rows|by apply Forall_select].
  - exists (select mask a). split; [by apply getitem_select_rows|by apply Forall_select].
Qed.

Section FilterProperties.

Variable df : frame.
Hypothesis Htable : is_table df.

Lemma table_column_rows (label : string) (col : column) :
  getitem df label = Ok col -> (fun r => row_get r label) <$> rows df = col.
Proof. apply rows_n_column, Htable. Qed.

Lemma mask_tanggal_rows (start_date end_date : pydate) :
  mask_tanggal df start_date end_date
  = Ok (row_in_range start_date end_date <$> rows df).
Proof.
  destruct (table_tanggal _ Htable) as (col & Hget & _).
  unfold mask_tanggal. rewrite Hget, !result_bind_Ok.
  unfold mret, result_ret. f_equal.
  unfold series_and, series_ge, series_le.
  rewrite <- (table_column_rows _ _ Hget), <- !list_fmap_compose.
  rewrite zip_with_fmap_same. apply list_fmap_ext. intros _ r _.
  unfold compose, row_in_range, cell_ge, cell_le.
  destruct (row_get r "Tanggal"), (to_datetime start_date),
    (to_datetime end_date); try reflexivity.
  all: try (by rewrite andb_false_r).
  repeat case_bool_decide; try reflexivity; lia.
Qed.

Lemma mask_kategori_rows (selected_kat : string) (p : row -> bool) :
  mask_kategori df selected_kat (p <$> rows df)
  = Ok ((fun r => p r && row_has_kategori selected_kat r) <$> rows df).
Proof.
  destruct (table_kategori _ Htable) as (col & Hget & _).
  unfold mask_kategori, row_has_kategori.
  destruct (decide (selected_kat ≠ "Semua"%string)) as [Hne|Heq].
  - rewrite Hget, result_bind_Ok. unfold mret, result_ret. f_equal.
    unfold series_and, series_eq.
    rewrite <- (table_column_rows _ _ Hget), <- !list_fmap_compose.
    rewrite zip_with_fmap_same. apply list_fmap_ext. intros _ r _.
    unfold compose. by rewrite bool_decide_false.
  - unfold mret, result_ret. f_equal. apply list_fmap_ext. intros _ r _.
    rewrite bool_decide_true by (by destruct (decide (selected_kat = "Semua"%string))).
    by rewrite andb_true_r.
Qed.

Lemma mask_items_rows (selected_items : list string) (p : row -> bool) :
  mask_items df selected_items (p <$> rows df)
  = Ok ((fun r => p r && row_has_item selected_items r) <$> rows df).
Proof.
  destruct (table_nama_item _ Htable) as (col & Hget & _).
  unfold mask_items, row_has_item, row_isin.
  destruct (truthy selected_items).
  - rewrite Hget, result_bind_Ok. unfold mret, result_ret. f_equal.
    unfold series_and, series_isin.
    rewrite <- (table_column_rows _ _ Hget), <- !list_fmap_compose.
    rewrite zip_with_fmap_same. apply list_fmap_ext. by intros _ r _.
  - unfold mret, result_ret. f_equal. apply list_fmap_ext. intros _ r _.
    by rewrite andb_true_r.
Qed.

Lemma build_mask_rows (start_date end_date : pydate) (selected_kat : string)
    (selected_items : list string) :
  build_mask df start_date end_date selected_kat selected_items
  = Ok (row_matches start_date end_date selected_kat selected_items <$> rows df).
Proof.
  unfold build_mask. rewrite mask_tanggal_rows, result_bind_Ok.
  rewrite mask_kategori_rows, result_bind_Ok.
  by rewrite mask_items_rows.
Qed.

Lemma rows_select_rows (p : row -> bool) :
  rows (select_rows (p <$> rows df) df) = List.filter p (rows df).
Proof.
  assert (Hlen : length (p <$> rows df) = nrows df)
    by (by rewrite length_fmap, rows_length).
  destruct (table_tanggal _ Htable) as (col & Hget & _).
  pose proof (wf_frame_select_rows _ _ df (table_wf _ Htable) Hlen) as Hwf'.
  unfold rows at 1.
  rewrite (wf_frame_nrows _ _ _ _ Hwf' (getitem_select_rows _ _ _ _ Hget)).
  rewrite (rows_n_select_rows (nrows df)); [|apply Htable|exact Hlen].
  apply select_fmap.
Qed.

Lemma apply_filter_rows (start_date end_date : pydate) (selected_kat : string)
    (selected_items : list string) :
  exists f,
    apply_filter df start_date end_date selected_kat selected_items = Ok f /\
    is_table f /\
    rows f = List.filter
               (row_matches start_date end_date selected_kat selected_items)
               (rows df).
Proof.
  eexists. unfold apply_filter. rewrite build_mask_rows, result_bind_Ok.
  split; [reflexivity|]. split.
  - apply is_table_select_rows; [exact Htable|].
    by rewrite length_fmap, rows_length.
  - apply rows_select_rows.
Qed.

End FilterProperties.

Lemma foldl_min_le (l : list Z) (a : Z) :
  foldl Z.min a l ≤ a /\ forall x, x ∈ l -> foldl Z.min a l ≤ x.
Proof.
  revert a. induction l as [|y l IH]; intros a; simpl.
  - split; [lia|]. intros x Hx. inversion Hx.
  - destruct (IH (Z.min a y)) as [H1 H2]. split; [lia|].
    intros x [->|Hx]%elem_of_cons; [lia|by apply H2].
Qed.

Lemma foldl_max_ge (l : list Z) (a : Z) :
  a ≤ foldl Z.max a l /\ forall x, x ∈ l -> x ≤ foldl Z.max a l.
Proof.
  revert a. induction l as [|y l IH]; intros a; simpl.
  - split; [lia|]. intros x Hx. inversion Hx.
  - destruct (IH (Z.max a y)) as [H1 H2]. split; [lia|].
    intros x [->|Hx]%elem_of_cons; [lia|by apply H2].
Qed.

Lemma elem_of_ts_values (col : column) (t : Z) : Ts t ∈ col -> t ∈ ts_values col.
Proof. intros H. apply list_elem_of_omap. by exists (Ts t). Qed.

Lemma series_min_le (col : column) (t : Z) :
  Ts t ∈ col -> exists lo, series_min col = Some lo /\ lo ≤ t.
Proof.
  intros H%elem_of_ts_values. unfold series_min.
  destruct (ts_values col) as [|a l]; [inversion H|].
  eexists. split; [reflexivity|]. destruct (foldl_min_le l a) as [H1 H2].
  apply elem_of_cons in H as [->|H]; [done|by apply H2].
Qed.

Lemma series_max_ge (col : column) (t : Z) :
  Ts t ∈ col -> exists hi, series_max col = Some hi /\ t ≤ hi.
Proof.
  intros H%elem_of_ts_values. unfold series_max.
  destruct (ts_values col) as [|a l]; [inversion H|].
  eexists. split; [reflexivity|]. destruct (foldl_max_ge l a) as [H1 H2].
  apply elem_of_cons in H as [->|H]; [done|by apply H2].
Qed.

Lemma row_in_range_spec (start_date end_date : pydate) (r : row) :
  row_in_range start_date end_date r = true <->
  exists t lo hi, row_get r "Tanggal" = Ts t /\
    to_datetime start_date = Some lo /\ to_datetime end_date = Some hi /\
    lo ≤ t ≤ hi.
Proof.
  unfold row_in_range.
  destruct (row_get r "Tanggal") as [| | | |t];
    try (split; [discriminate|by intros (?&?&?&?&_)]).
  destruct (to_datetime start_date) as [lo|];
    [|split; [discriminate|by intros (?&?&?&_&?&_)]].
  destruct (to_datetime end_date) as [hi|];
    [|split; [discriminate|by intros (?&?&?&_&_&?&_)]].
  rewrite bool_decide_eq_true. split.
  - intros H. by exists t, lo, hi.
  - by intros (?&?&?&[= ->]&[= ->]&[= ->]&?).
Qed.


(** C3 (as amended): with an empty choice of items the item step is
    skipped ([if selected_items:] is false), so the filter returns the rows
    that pass the date and the category predicate, whatever their item. *)
Theorem empty_items_not_filtered (df : frame) (start_date end_date : pydate)
    (selected_kat : string) :
  is_table df ->
  exists f,
    apply_filter df start_date end_date selected_kat [] = Ok f /\
    rows f = List.filter
               (fun r => row_in_range start_date end_date r
                         && row_has_kategori selected_kat r)
               (rows df).
Proof.
  intros Htable.
  destruct (apply_filter_rows df Htable start_date end_date selected_kat [])
    as (f & Hf & _ & Hrows).
  exists f. split; [exact Hf|]. rewrite Hrows.
  apply List.filter_ext. intros r. unfold row_matches, row_has_item. simpl.
  apply andb_true_r.
Qed.

Lemma series_and_swap (m a b : list bool) :
  series_and (series_and m a) b = series_and (series_and m b) a.
Proof.
  unfold series_and. revert a b.
  induction m as [|x m IH]; intros [|y a] [|z b]; simpl; try done.
  rewrite IH. f_equal. destruct x, y, z; reflexivity.
Qed.

(** C7: the category step and the item step of the mask commute, on any
    mask built so far, and so the filter returns the same table whichever
    of the two is applied first. *)
Theorem kategori_items_commute (df : frame) (start_date end_date : pydate)
    (selected_kat : string) (selected_items : list string) :
  is_table df ->
  (forall mask : list bool,
     mask_kategori df selected_kat mask ≫= mask_items df selected_items
     = mask_items df selected_items mask ≫= mask_kategori df selected_kat) /\
  apply_filter df start_date end_date selected_kat selected_items
  = apply_filter_swapped df start_date end_date selected_kat selected_items.
Proof.
  intros Htable.
  assert (Hswap : forall mask : list bool,
     mask_kategori df selected_kat mask ≫= mask_items df selected_items
     = mask_items df selected_items mask ≫= mask_kategori df selected_kat).
  { intros mask.
    destruct (table_kategori _ Htable) as (k & Hk & _).
    destruct (table_nama_item _ Htable) as (n & Hn & _).
    unfold mask_kategori, mask_items.
    destruct (decide (selected_kat ≠ "Semua"%string)), (truthy selected_items);
      rewrite ?Hk, ?Hn, ?result_bind_Ok; unfold mret, result_ret;
      rewrite ?result_bind_Ok, ?Hk, ?Hn, ?result_bind_Ok;
      try reflexivity.
    unfold mret, result_ret. f_equal. apply series_and_swap. }
  split; [exact Hswap|].
  unfold apply_filter, apply_filter_swapped, build_mask.
  rewrite mask_tanggal_rows by done. rewrite !result_bind_Ok.
  specialize (Hswap (row_in_range start_date end_date <$> rows df)).
  destruct (mask_kategori df selected_kat _) as [m1|e1] eqn:H1;
    destruct (mask_items df selected_items (_ <$> rows df)) as [m2|e2] eqn:H2.
  - rewrite !result_bind_Ok in *. by rewrite Hswap.
  - rewrite (mask_items_rows df Htable) in H2. discriminate.
  - rewrite (mask_kategori_rows df Htable) in H1. discriminate.
  - rewrite (mask_kategori_rows df Htable) in H1. discriminate.
Qed.

(** ** Steps of the script on the store *)

Lemma bind_load {A} (l : loc) (d : frame) (k : frame -> script A) (s : state) :
  heap s !! l = Some d -> (load l ≫= k) s = k d s.
Proof. intros H. unfold mbind, script_bind, load. by rewrite H. Qed.

Lemma bind_lift_Ok {A B} (a : A) (k : A -> script B) (s : state) :
  (lift (Ok a) ≫= k) s = k a s.
Proof. reflexivity. Qed.

Lemma bind_alloc {A} (df : frame) (k : loc -> script A) (s : state) :
  (alloc df ≫= k) s
  = k (fresh (dom (heap s)))
      (State (<[fresh (dom (heap s)) := df]> (heap s)) (page s)).
Proof. reflexivity. Qed.

Lemma bind_emit {A} (e : event) (k : unit -> script A) (s : state) :
  (emit e ≫= k) s = k tt (State (heap s) (page s ++ [e])).
Proof. reflexivity. Qed.

Lemma bind_store_column {A} (l : loc) (label : string) (v : column) (d : frame)
    (k : unit -> script A) (s : state) :
  heap s !! l = Some d ->
  (store_column l label v ≫= k) s
  = k tt (State (<[l := setitem d label v]> (heap s)) (page s)).
Proof. intros H. unfold mbind, script_bind, store_column. by rewrite H. Qed.

Lemma fresh_loc_unbound (s : state) : heap s !! fresh (dom (heap s)) = None.
Proof. apply not_elem_of_dom, is_fresh. Qed.

(** C9: the filter step binds [filtered] to a new frame that holds exactly
    the rows of the table that pass the predicates chosen in the sidebar,
    in the order they have in the table; the table itself, and every other
    frame of the store, is left as it was. *)
Theorem filter_step_new_table (df : loc) (d : frame) (w : widgets) (s : state) :
  heap s !! df = Some d -> is_table d ->
  exists filtered f tanggal s',
    filter_step df w s = Done filtered s' /\
    getitem d "Tanggal" = Ok tanggal /\
    heap s !! filtered = None /\
    heap s' = <[filtered := f]> (heap s) /\
    heap s' !! df = Some d /\
    rows f =
      List.filter
        (row_matches
           (unpack_range (date_range w) (series_min tanggal) (series_max tanggal)).1
           (unpack_range (date_range w) (series_min tanggal) (series_max tanggal)).2
           (selected_kat w) (selected_items w))
        (rows d).
Proof.
  intros Hdf Htable.
  destruct (table_tanggal _ Htable) as (tanggal & Hget & _).
  set (range := unpack_range (date_range w) (series_min tanggal) (series_max tanggal)).
  set (mask := row_matches range.1 range.2 (selected_kat w) (selected_items w)
               <$> rows d).
  set (filtered := fresh (dom (heap s))).
  exists filtered, (select_rows mask d), tanggal.
  exists (State (<[filtered := select_rows mask d]> (heap s))
            (page s ++ [Markdown ("**Jumlah data setelah filter: "
                                  +:+ pretty (nrows (select_rows mask d))
                                  +:+ " baris**")%string])).
  split; [|split; [exact Hget|]].
  - unfold filter_step. rewrite (bind_load _ _ _ _ Hdf), Hget, bind_lift_Ok.
    fold range. unfold mask. destruct range as [start_date end_date].
    rewrite (build_mask_rows d Htable), bind_lift_Ok, bind_alloc.
    erewrite bind_load; [|apply lookup_insert_eq].
    rewrite bind_emit. reflexivity.
  - cbn [heap]. split; [apply fresh_loc_unbound|]. split; [reflexivity|].
    split.
    + rewrite lookup_insert_ne; [exact Hdf|].
      intros Heq. pose proof (fresh_loc_unbound s) as Hnone.
      fold filtered in Hnone. rewrite Heq, Hdf in Hnone. discriminate.
    + apply (rows_select_rows d Htable).
Qed.

Lemma series_map_format (total : column) :
  Forall is_number total ->
  series_map format_cell total
  = Ok ((fun c => Str (format_number (cell_num c))) <$> total).
Proof.
  induction 1 as [|c total Hc _ IH]; [done|].
  change (series_map format_cell (c :: total))
    with (format_cell c ≫= fun c' =>
          series_map format_cell total ≫= fun rest' => mret (c' :: rest')).
  rewrite IH. by destruct c.
Qed.

(** C10: the display table is made on a copy.  After the table step the
    frame behind [filtered], and every other frame that was in the store
    (the loaded table among them), is what it was, its amount column still
    numeric; the amounts are replaced by their texts only in the new frame
    that [display_df] is bound to. *)
Theorem table_step_formats_copy (filtered : loc) (f : frame) (s : state) :
  heap s !! filtered = Some f -> is_table f ->
  exists display_df total s',
    let texts := (fun c => Str (format_number (cell_num c))) <$> total in
    table_step filtered s = Done display_df s' /\
    heap s !! display_df = None /\
    getitem f "Total_Penjualan" = Ok total /\
    Forall is_number total /\
    heap s' = <[display_df := setitem f "Total_Penjualan" texts]> (heap s) /\
    heap s' !! filtered = Some f /\
    (forall l, is_Some (heap s !! l) -> heap s' !! l = heap s !! l) /\
    getitem (setitem f "Total_Penjualan" texts) "Total_Penjualan" = Ok texts /\
    Forall is_text texts.
Proof.
  intros Hf Htable.
  destruct (table_total _ Htable) as (total & Hget & Hnum).
  set (texts := (fun c => Str (format_number (cell_num c))) <$> total).
  set (display_df := fresh (dom (heap s))).
  exists display_df, total.
  exists (State (<[display_df := setitem f "Total_Penjualan" texts]> (heap s))
            (page s ++ [Subheader "Tabel Data"]
             ++ [DataTable (setitem f "Total_Penjualan" texts)])).
  cbv zeta. fold texts.
  assert (Hnew : heap s !! display_df = None) by apply fresh_loc_unbound.
  assert (Hne : display_df ≠ filtered).
  { intros Heq. rewrite Heq, Hf in Hnew. discriminate. }
  split; [|split; [exact Hnew|split; [exact Hget|split; [exact Hnum|]]]].
  - unfold table_step. rewrite bind_emit.
    erewrite bind_load; [|exact Hf].
    rewrite bind_alloc. cbn [heap page]. fold display_df.
    erewrite bind_load; [|apply lookup_insert_eq].
    rewrite Hget, bind_lift_Ok, (series_map_format _ Hnum), bind_lift_Ok.
    fold texts.
    erewrite bind_store_column; [|apply lookup_insert_eq].
    cbn [heap page]. rewrite insert_insert_eq.
    erewrite bind_load; [|apply lookup_insert_eq].
    rewrite bind_emit. cbn [heap page]. by rewrite <- app_assoc.
  - cbn [heap]. split; [reflexivity|]. split.
    { by rewrite lookup_insert_ne. }
    split.
    { intros l [x Hl]. rewrite lookup_insert_ne; [done|].
      intros Heq. rewrite <- Heq, Hnew in Hl. discriminate. }
    split; [apply getitem_setitem_eq|].
    apply Forall_fmap, Forall_true. by intros c.
Qed.

(** ** Aggregates *)

Lemma group_total_snoc (k : cell) (l : list (cell * cell)) (kv : cell * cell) :
  (group_total k (l ++ [kv])
   == group_total k l + (if decide (kv.1 = k) then cell_num kv.2 else 0))%Q.
Proof.
  unfold group_total. induction l as [|x l IH]; simpl.
  - destruct (decide (kv.1 = k)); ring.
  - destruct (decide (x.1 = k)); rewrite IH; ring.
Qed.

Lemma add_to_keys (k : cell) (v : Q) (acc : list (cell * Q)) :
  (add_to k v acc).*1 = if decide (k ∈ acc.*1) then acc.*1 else acc.*1 ++ [k].
Proof.
  induction acc as [|[k0 s0] acc IH]; csimpl.
  - reflexivity.
  - destruct (decide (k0 = k)) as [->|Hne]; csimpl.
    + rewrite decide_True; [done|]. apply elem_of_cons. by left.
    + rewrite IH. destruct (decide (k ∈ acc.*1)) as [Hin|Hout].
      * rewrite decide_True; [done|]. apply elem_of_cons. by right.
      * rewrite decide_False; [done|].
        intros [?|?]%elem_of_cons; congruence.
Qed.

Lemma add_to_elem (k : cell) (v : Q) (acc : list (cell * Q)) (k' : cell) (s' : Q) :
  NoDup acc.*1 -> (k', s') ∈ add_to k v acc ->
  (k' ≠ k /\ (k', s') ∈ acc) \/
  (k' = k /\ ((exists s, (k, s) ∈ acc /\ s' = (s + v)%Q) \/ ((k ∉ acc.*1) /\ s' = v))).
Proof.
  induction acc as [|[k0 s0] acc IH]; csimpl; intros Hnd Hin.
  - apply list_elem_of_singleton in Hin. injection Hin as -> ->.
    right. split; [done|]. right. split; [|done]. intros H. inversion H.
  - apply NoDup_cons in Hnd as [Hk0 Hnd].
    destruct (decide (k0 = k)) as [->|Hne].
    + apply elem_of_cons in Hin as [Hin|Hin].
      * injection Hin as -> ->. right. split; [done|]. left.
        exists s0. split; [|done]. apply elem_of_cons. by left.
      * left. split.
        -- intros ->. apply Hk0. apply list_elem_of_fmap. by exists (k, s').
        -- apply elem_of_cons. by right.
    + apply elem_of_cons in Hin as [Hin|Hin].
      * injection Hin as -> ->. left. split; [done|]. apply elem_of_cons. by left.
      * destruct (IH Hnd Hin) as [[H1 H2]|[-> [(s & H1 & H2)|[H1 H2]]]].
        -- left. split; [done|]. apply elem_of_cons. by right.
        -- right. split; [done|]. left. exists s. split; [|done].
           apply elem_of_cons. by right.
        -- right. split; [done|]. right. split; [|done].
           intros [?|?]%elem_of_cons; [congruence|by apply H1].
Qed.

Lemma groups_of_step (l : list (cell * cell)) (acc : list (cell * Q))
    (kv : cell * cell) :
  groups_of l acc -> groups_of (l ++ [kv]) (accumulate_row acc kv).
Proof.
  intros (Hnd & Hkeys & Hsum). destruct kv as [k v].
  assert (Hmem : forall k', k' ∈ (l ++ [(k, v)]).*1 <-> k' ∈ l.*1 \/ k' = k).
  { intros k'. rewrite fmap_app, elem_of_app. simpl.
    by rewrite list_elem_of_singleton. }
  destruct (decide (k = Null)) as [->|Hk].
  - unfold accumulate_row. simpl. split; [exact Hnd|]. split.
    + intros k'. rewrite Hkeys, Hmem. intuition congruence.
    + intros k' s Hin. rewrite group_total_snoc. simpl.
      assert (k' ≠ Null).
      { apply (Hkeys k'). apply list_elem_of_fmap. by exists (k', s). }
      rewrite decide_False by done. rewrite (Hsum _ _ Hin). ring.
  - assert (Hrow : accumulate_row acc (k, v) = add_to k (cell_num v) acc)
      by (unfold accumulate_row; simpl; by destruct k).
    rewrite Hrow. split; [|split].
    + rewrite add_to_keys. destruct (decide (k ∈ acc.*1)) as [Hin|Hout]; [done|].
      apply NoDup_app. split; [done|]. split; [|apply NoDup_singleton].
      intros x Hx ->%list_elem_of_singleton. done.
    + intros k'. rewrite add_to_keys, Hmem.
      destruct (decide (k ∈ acc.*1)) as [Hin|Hout].
      * rewrite Hkeys. apply Hkeys in Hin. intuition (subst; auto).
      * rewrite elem_of_app, list_elem_of_singleton, Hkeys.
        intuition (subst; auto).
    + intros k' s Hin. rewrite group_total_snoc. simpl.
      destruct (add_to_elem _ _ _ _ _ Hnd Hin)
        as [[H1 H2]|[-> [(s0 & H1 & ->)|[H1 ->]]]].
      * rewrite decide_False by done. rewrite (Hsum _ _ H2). ring.
      * rewrite decide_True by done. by rewrite (Hsum _ _ H1).
      * rewrite decide_True by done.
        assert (Hzero : (group_total k l == 0)%Q).
        { assert (Hno : k ∉ l.*1) by (intros ?; apply H1, Hkeys; done).
          clear -Hno. induction l as [|[k0 v0] l IH]; [reflexivity|].
          simpl in *. apply not_elem_of_cons in Hno as [? ?].
          rewrite decide_False by done. by apply IH. }
        rewrite Hzero. ring.
Qed.

Lemma accumulate_groups (keys vals : column) :
  groups_of (zip keys vals) (accumulate keys vals).
Proof.
  unfold accumulate. induction (zip keys vals) as [|kv l IH] using rev_ind.
  - split; [constructor|]. split.
    + intros k. split; [intros H; inversion H|intros [_ H]; inversion H].
    + intros k s H. inversion H.
  - rewrite foldl_app. simpl. by apply groups_of_step.
Qed.

Lemma groupby_sum_groups (keys vals : column) :
  groups_of (zip keys vals) (groupby_sum keys vals).
Proof.
  destruct (accumulate_groups keys vals) as (Hnd & Hkeys & Hsum).
  unfold groupby_sum.
  pose proof (merge_sort_Permutation key_le (accumulate keys vals)) as Hperm.
  split; [by rewrite Hperm|]. split.
  - intros k. by rewrite Hperm.
  - intros k s Hin. apply Hsum. by rewrite <- Hperm.
Qed.


(** ** Top N *)

#[global] Instance measure_ge_trans : Transitive measure_ge.
Proof. intros a b c Hab Hbc. unfold measure_ge in *. by eapply Qle_trans. Qed.

#[global] Instance measure_ge_total : Total measure_ge.
Proof.
  intros a b. unfold measure_ge.
  destruct (Qlt_le_dec a.2 b.2) as [H|H]; [right|left]; [|done].
  by apply Qlt_le_weak.
Qed.



Section TopN.

Variable sort_values_desc : list (cell * Q) -> list (cell * Q).
Hypothesis sort_values_perm : forall l, sort_values_desc l ≡ₚ l.
Hypothesis sort_values_sorted : forall l, Sorted measure_ge (sort_values_desc l).


End TopN.

(** ** Column resolution *)

Lemma lower_map_fold_lookup (cols : list string) (m : gmap string string)
    (k : string) :
  foldl (fun m c => <[lower c := c]> m) m cols !! k
  = match last (filter (fun c => lower c = k) cols) with
    | Some c => Some c
    | None => m !! k
    end.
Proof.
  revert m. induction cols as [|x cols IH]; intros m; simpl; [done|].
  rewrite IH. destruct (decide (lower x = k)) as [Hx|Hx].
  - rewrite filter_cons_True by done. rewrite last_cons.
    destruct (last (filter _ cols)); [done|]. rewrite <- Hx.
    apply lookup_insert_eq.
  - rewrite filter_cons_False by done.
    destruct (last (filter _ cols)); [done|]. by apply lookup_insert_ne.
Qed.

Lemma lower_map_of_Some (cols : list string) (k x : string) :
  lower_map_of cols !! k = Some x -> lower x = k /\ x ∈ cols.
Proof.
  unfold lower_map_of. rewrite lower_map_fold_lookup.
  destruct (last (filter _ cols)) as [y|] eqn:Hlast; [|by rewrite lookup_empty].
  intros [= ->]. apply last_Some_elem_of in Hlast.
  by apply list_elem_of_filter in Hlast.
Qed.

Lemma lower_map_of_unique (cols : list string) (c : string) :
  c ∈ cols -> (forall c', c' ∈ cols -> lower c' = lower c -> c' = c) ->
  lower_map_of cols !! lower c = Some c.
Proof.
  intros Hc Huniq. unfold lower_map_of. rewrite lower_map_fold_lookup.
  destruct (last (filter _ cols)) as [y|] eqn:Hlast.
  - apply last_Some_elem_of, list_elem_of_filter in Hlast as [Hy Hin].
    f_equal. by apply Huniq.
  - apply last_None in Hlast.
    assert (Hin : c ∈ filter (fun x => lower x = lower c) cols)
      by (by apply list_elem_of_filter).
    rewrite Hlast in Hin. inversion Hin.
Qed.

Lemma columns_rename_with (f : string -> string) (df : frame) :
  columns (rename_with f df) = f <$> columns df.
Proof.
  unfold columns, rename_with. rewrite <- !list_fmap_compose.
  apply list_fmap_ext. by intros _ [c v] _.
Qed.

Lemma rename_comm (x e c col : string) (df : frame) :
  x ≠ c -> x ≠ col -> e ≠ c ->
  rename x e (rename c col df) = rename c col (rename x e df).
Proof.
  intros H1 H2 H3. unfold rename, rename_with. rewrite <- !list_fmap_compose.
  apply list_fmap_ext. intros _ [y v] _. unfold compose, prod_map. simpl.
  f_equal. repeat case_decide; congruence.
Qed.

Lemma getitem_rename_other (x e l : string) (df : frame) :
  x ≠ l -> e ≠ l -> getitem (rename x e df) l = getitem df l.
Proof.
  intros H1 H2. induction df as [|[y v] df IH]; [done|].
  unfold rename, rename_with in *. rewrite fmap_cons. simpl.
  rewrite IH. repeat case_decide; congruence.
Qed.

Lemma getitem_rename_fresh (c col : string) (df : frame) :
  col ∉ columns df -> c ∈ columns df ->
  getitem (rename c col df) col = getitem df c.
Proof.
  induction df as [|[y v] df IH].
  - intros _ Hc. inversion Hc.
  - unfold rename, rename_with, columns in *. rewrite !fmap_cons. simpl.
    intros [H1 H2]%not_elem_of_cons Hc.
    destruct (decide (y = c)) as [->|Hy].
    + by rewrite decide_True.
    + rewrite decide_False by congruence.
      apply IH; [done|]. apply elem_of_cons in Hc as [Hc|Hc]; [congruence|done].
Qed.

Lemma expected_lower_inj (e e' : string) :
  e ∈ expected -> e' ∈ expected -> lower e = lower e' -> e = e'.
Proof.
  unfold expected. intros He He'.
  repeat (apply elem_of_cons in He as [->|He]);
    try (by apply elem_of_nil in He);
    repeat (apply elem_of_cons in He' as [->|He']);
    try (by apply elem_of_nil in He'); try reflexivity;
    vm_compute; discriminate.
Qed.

Lemma elem_of_columns_rename (x e y : string) (df : frame) :
  y ∈ columns (rename x e df) <->
  (y = e /\ x ∈ columns df) \/ (y ≠ x /\ y ∈ columns df).
Proof.
  unfold rename. rewrite columns_rename_with, list_elem_of_fmap. split.
  - intros (z & -> & Hz). case_decide; subst; auto.
  - intros [[-> Hx]|[Hne Hy]].
    + exists x. by rewrite decide_True.
    + exists y. by rewrite decide_False.
Qed.

Lemma filter_lower_rename (cols : list string) (c col k : string) :
  lower c = lower col -> k ≠ lower col ->
  filter (fun x => lower x = k) ((fun x => if decide (x = c) then col else x) <$> cols)
  = filter (fun x => lower x = k) cols.
Proof.
  intros Hlow Hk. induction cols as [|x cols IH]; [done|].
  rewrite fmap_cons. destruct (decide (x = c)) as [->|Hx].
  - rewrite !filter_cons_False by congruence. exact IH.
  - destruct (decide (lower x = k)).
    + rewrite !filter_cons_True by done. by rewrite IH.
    + rewrite !filter_cons_False by done. exact IH.
Qed.

Section Resolve.

Variable cols0 : list string.
Variables c col : string.
Hypothesis Hc0 : c ∈ cols0.
Hypothesis Hlow : lower c = lower col.
Hypothesis Huniq0 : forall c', c' ∈ cols0 -> lower c' = lower col -> c' = c.

(** The map of lower-cased headers of the sheet, and of the same sheet
    with the header [c] already spelled [col]. *)
Let m : gmap string string := lower_map_of cols0.
Let m' : gmap string string :=
  lower_map_of ((fun x => if decide (x = c) then col else x) <$> cols0).

Lemma lower_map_match : m !! lower col = Some c.
Proof.
  unfold m. rewrite <- Hlow. apply lower_map_of_unique; [done|].
  intros c' ? ?. apply Huniq0; congruence.
Qed.

Lemma lower_map_other (k : string) : k ≠ lower col -> m' !! k = m !! k.
Proof.
  intros Hk. unfold m, m', lower_map_of.
  by rewrite !lower_map_fold_lookup, filter_lower_rename.
Qed.

Lemma resolve_one_other (df : frame) (e : string) :
  before_turn c col df -> lower e ≠ lower col ->
  resolve_one m' (rename c col df) e = rename c col (resolve_one m df e) /\
  before_turn c col (resolve_one m df e) /\
  getitem (resolve_one m df e) c = getitem df c.
Proof.
  intros (Hcol & Hc & Huniq) He.
  assert (e ≠ col) by congruence. assert (e ≠ c) by congruence.
  assert (Hmem : e ∈ columns (rename c col df) <-> e ∈ columns df).
  { rewrite elem_of_columns_rename. intuition. }
  unfold resolve_one.
  destruct (decide (e ∈ columns df)) as [Hin|Hout].
  - rewrite decide_True by (by apply Hmem). done.
  - rewrite decide_False by (by rewrite Hmem).
    rewrite lower_map_other by done.
    destruct (m !! lower e) as [x|] eqn:Hx; [|done].
    apply lower_map_of_Some in Hx as [Hx _].
    assert (x ≠ c) by congruence. assert (x ≠ col) by congruence.
    split; [by apply rename_comm|]. split; [|by apply getitem_rename_other].
    split; [|split].
    + rewrite elem_of_columns_rename. intuition.
    + rewrite elem_of_columns_rename. by right.
    + intros y [[-> _]|[_ Hy]]%elem_of_columns_rename Hly; [done|].
      by apply Huniq.
Qed.

Lemma resolve_one_after (df : frame) (e : string) :
  col ∈ columns df -> e = col \/ lower e ≠ lower col ->
  resolve_one m' df e = resolve_one m df e /\
  col ∈ columns (resolve_one m df e) /\
  getitem (resolve_one m df e) col = getitem df col.
Proof.
  intros Hcol [->|He]; unfold resolve_one.
  - by rewrite !decide_True.
  - destruct (decide (e ∈ columns df)); [done|].
    rewrite lower_map_other by done.
    destruct (m !! lower e) as [x|] eqn:Hx; [|done].
    apply lower_map_of_Some in Hx as [Hx _].
    assert (x ≠ col) by congruence. assert (e ≠ col) by congruence.
    split; [done|]. split; [|by apply getitem_rename_other].
    rewrite elem_of_columns_rename. by right.
Qed.

Lemma resolve_fold_after (es : list string) (df : frame) :
  (forall e, e ∈ es -> e = col \/ lower e ≠ lower col) ->
  col ∈ columns df ->
  foldl (resolve_one m') df es = foldl (resolve_one m) df es /\
  getitem (foldl (resolve_one m) df es) col = getitem df col.
Proof.
  revert df. induction es as [|e es IH]; intros df Hes Hcol; [done|].
  simpl.
  destruct (resolve_one_after df e Hcol) as (-> & Hcol' & Hget).
  { apply Hes. by left. }
  rewrite <- Hget. apply IH; [|done].
  intros e' He'. apply Hes. by right.
Qed.

Lemma resolve_fold_before (es : list string) (df : frame) :
  (forall e, e ∈ es -> e = col \/ lower e ≠ lower col) ->
  before_turn c col df -> col ∈ es ->
  foldl (resolve_one m') (rename c col df) es = foldl (resolve_one m) df es /\
  getitem (foldl (resolve_one m) df es) col = getitem df c.
Proof.
  revert df. induction es as [|e es IH]; intros df Hes Hbefore Hin.
  { inversion Hin. }
  assert (Hes' : forall e', e' ∈ es -> e' = col \/ lower e' ≠ lower col).
  { intros e' He'. apply Hes. by right. }
  simpl. destruct (decide (e = col)) as [->|Hne].
  - destruct Hbefore as (Hcol & Hc & _).
    assert (Hrun : resolve_one m df col = rename c col df).
    { unfold resolve_one. rewrite decide_False by done.
      by rewrite lower_map_match. }
    assert (Hcol' : col ∈ columns (rename c col df)).
    { rewrite elem_of_columns_rename. by left. }
    assert (Hrun' : resolve_one m' (rename c col df) col = rename c col df).
    { unfold resolve_one. by rewrite decide_True. }
    rewrite Hrun, Hrun'.
    destruct (resolve_fold_after es (rename c col df) Hes' Hcol') as [-> ->].
    split; [done|]. by apply getitem_rename_fresh.
  - destruct (resolve_one_other df e Hbefore) as (-> & Hbefore' & Hget).
    { destruct (Hes e) as [?|?]; [by left|done|done]. }
    rewrite <- Hget. apply IH; [done|done|].
    apply elem_of_cons in Hin as [?|?]; [congruence|done].
Qed.

End Resolve.

(** C5 (as amended): when a canonical name is absent from the trimmed
    headers and exactly one header matches it without regard to case, the
    loader renames that header to the canonical name: the canonical column
    holds that column's entries, and loading the sheet gives the same
    table as loading the sheet with the header already spelled the
    canonical way. *)
Theorem resolve_columns_case_insensitive (raw : frame) (c col : string) :
  let df := rename_with strip raw in
  col ∈ expected -> c ∈ columns df -> lower c = lower col ->
  col ∉ columns df ->
  (forall c', c' ∈ columns df -> lower c' = lower col -> c' = c) ->
  getitem (resolve_columns df) col = getitem df c /\
  resolve_columns (rename c col df) = resolve_columns df /\
  forall read_excel strptime parse_number repr path path' raw',
    read_excel path = Ok raw -> read_excel path' = Ok raw' ->
    rename_with strip raw' = rename c col df ->
    load_data read_excel strptime parse_number repr path'
    = load_data read_excel strptime parse_number repr path.
Proof.
  intros df Hexp Hc Hlow Hcol Huniq.
  assert (Hes : forall e, e ∈ expected -> e = col \/ lower e ≠ lower col).
  { intros e He. destruct (decide (e = col)) as [?|Hne]; [by left|right].
    intros Hl. apply Hne. by apply expected_lower_inj. }
  destruct (resolve_fold_before (columns df) c col Hc Hlow Huniq
              expected df Hes) as [Hrun Hget]; [done|done|].
  assert (Hresolve : resolve_columns (rename c col df) = resolve_columns df).
  { unfold resolve_columns. unfold rename at 1.
    rewrite columns_rename_with. exact Hrun. }
  split; [exact Hget|]. split; [exact Hresolve|].
  intros read_excel strptime parse_number repr path path' raw' Hraw Hraw' Hsame.
  unfold load_data. rewrite Hraw, Hraw', !result_bind_Ok. cbv zeta.
  rewrite Hsame, Hresolve. reflexivity.
Qed.

(** * The script on the sample sheets *)

Example strip_header : strip " Tanggal " = "Tanggal"%string.
Proof. reflexivity. Qed.

Example lower_header : lower "Total_Penjualan" = "total_penjualan"%string.
Proof. reflexivity. Qed.

Example format_half_even : format_number (1234567 # 2) = "617,284"%string.
Proof. vm_compute. reflexivity. Qed.

Example format_negative : format_number (-75000 # 1) = "-75,000"%string.
Proof. vm_compute. reflexivity. Qed.

Example format_small : format_number (999 # 1) = "999"%string.
Proof. vm_compute. reflexivity. Qed.

Example sample_filter_coffee :
  apply_filter sample_table (Date 19723) (Date 19724) "Coffee" ["Latte"]%string
  = Ok [("Tanggal", [Ts 1704067200000000000]);
        ("Kategori", [Str "Coffee"]);
        ("Nama_Item", [Str "Latte"]);
        ("Jumlah", [Int 2]);
        ("Total_Penjualan", [Int 50000])]%string.
Proof. vm_compute. reflexivity. Qed.


Ltac by_decide := apply (bool_decide_unpack _); vm_compute; exact I.

Ltac table_column :=
  eexists; split; [vm_compute; reflexivity|repeat constructor].

Lemma sample_table_is_table : is_table sample_table.
Proof. split; [repeat constructor|table_column..]. Qed.

Lemma two_sales_is_table : is_table two_sales.
Proof. split; [repeat constructor|table_column..]. Qed.





(** C3, as stated, fails: with no item chosen the filter over the full
    range of the sample table keeps its two dated rows. *)
Lemma empty_items_keep_rows :
  is_table sample_table /\
  exists f,
    apply_filter sample_table (Stamp (Some 1704067200000000000))
      (Stamp (Some 1704153600000000000)) "Semua" [] = Ok f /\
    length (rows f) = 2%nat.
Proof.
  split; [apply sample_table_is_table|].
  eexists. split; vm_compute; reflexivity.
Qed.

Lemma empty_items_not_filtered_witness :
  exists f,
    apply_filter sample_table (Date 19723) (Date 19724) "Coffee" [] = Ok f /\
    rows f = List.filter
               (fun r => row_in_range (Date 19723) (Date 19724) r
                         && row_has_kategori "Coffee" r)
               (rows sample_table).
Proof.
  apply (empty_items_not_filtered sample_table (Date 19723) (Date 19724) "Coffee").
  split; [repeat constructor|table_column..].
Defined.


(** C5, as stated, fails on a sheet with the headers "tanggal" and
    "TANGGAL": the later one is renamed, so the canonical column does not
    hold the entries of "tanggal", and the table differs from the one
    loaded from the sheet whose first header is spelled "Tanggal". *)
Lemma resolve_columns_two_matches :
  let df := rename_with strip two_date_headers in
  "Tanggal"%string ∈ expected /\
  "tanggal"%string ∈ columns df /\
  lower "tanggal" = lower "Tanggal" /\
  ("Tanggal"%string ∉ columns df) /\
  getitem (resolve_columns df) "Tanggal" ≠ getitem df "tanggal" /\
  rename_with strip (rename "tanggal" "Tanggal" two_date_headers)
  = rename "tanggal" "Tanggal" df /\
  load_data two_headers_read_excel sample_strptime sample_parse_number
    sample_repr "canonical.xlsx"
  ≠ load_data two_headers_read_excel sample_strptime sample_parse_number
      sample_repr "lowercase.xlsx".
Proof.
  cbv zeta.
  split; [by_decide|].
  split; [by_decide|].
  split; [vm_compute; reflexivity|].
  split; [by_decide|].
  split; [vm_compute; discriminate|].
  split; [vm_compute; reflexivity|].
  vm_compute. discriminate.
Qed.

Lemma resolve_columns_case_insensitive_witness :
  getitem (resolve_columns (rename_with strip sample_sheet)) "Kategori"
  = getitem (rename_with strip sample_sheet) "kategori".
Proof.
  refine (proj1 (resolve_columns_case_insensitive sample_sheet
                   "kategori" "Kategori" _ _ _ _ _)).
  - by_decide.
  - by_decide.
  - vm_compute. reflexivity.
  - by_decide.
  - apply (proj1 (Forall_forall
               (fun c' => lower c' = lower "Kategori" -> c' = "kategori"%string)
               (columns (rename_with strip sample_sheet)))).
    by_decide.
Defined.

Lemma load_failure_stops_witness :
  load_data failing_read_excel sample_strptime sample_parse_number sample_repr
    "dataset_clean.xlsx"
  = Err (FileError "No such file or directory").
Proof.
  refine (proj1 (load_failure_stops failing_read_excel sample_strptime
                   sample_parse_number sample_repr sort_ties_reversed
                   "dataset_clean.xlsx" (FileError "No such file or directory")
                   (Widgets [] "Semua" [] 8) (State ∅ []) _)).
  reflexivity.
Defined.

Lemma kategori_items_commute_witness :
  apply_filter sample_table (Date 19723) (Date 19724) "Coffee" ["Latte"; "Mocha"]%string
  = apply_filter_swapped sample_table (Date 19723) (Date 19724) "Coffee"
      ["Latte"; "Mocha"]%string.
Proof.
  refine (proj2 (kategori_items_commute sample_table (Date 19723) (Date 19724)
                   "Coffee" ["Latte"; "Mocha"]%string _)).
  split; [repeat constructor|table_column..].
Defined.


Lemma filter_step_new_table_witness :
  exists filtered f tanggal s',
    filter_step 1%positive (Widgets [19723; 19724] "Semua" ["Latte"]%string 8)
      sample_state = Done filtered s' /\
    getitem sample_table "Tanggal" = Ok tanggal /\
    heap sample_state !! filtered = None /\
    heap s' = <[filtered := f]> (heap sample_state) /\
    heap s' !! 1%positive = Some sample_table /\
    rows f =
      List.filter
        (row_matches
           (unpack_range [19723; 19724] (series_min tanggal) (series_max tanggal)).1
           (unpack_range [19723; 19724] (series_min tanggal) (series_max tanggal)).2
           "Semua" ["Latte"]%string)
        (rows sample_table).
Proof.
  refine (filter_step_new_table 1%positive sample_table
            (Widgets [19723; 19724] "Semua" ["Latte"]%string 8) sample_state _ _).
  - vm_compute. reflexivity.
  - split; [repeat constructor|table_column..].
Defined.

Lemma table_step_formats_copy_witness :
  exists display_df total s',
    table_step 1%positive sample_state = Done display_df s' /\
    heap sample_state !! display_df = None /\
    getitem sample_table "Total_Penjualan" = Ok total /\
    Forall is_number total /\
    heap s' = <[display_df := setitem sample_table "Total_Penjualan"
                  ((fun c => Str (format_number (cell_num c))) <$> total)]>
                (heap sample_state) /\
    heap s' !! 1%positive = Some sample_table.
Proof.
  destruct (table_step_formats_copy 1%positive sample_table sample_state)
    as (display_df & total & s' & H1 & H2 & H3 & H4 & H5 & H6 & _).
  - vm_compute. reflexivity.
  - split; [repeat constructor|table_column..].
  - exists display_df, total, s'. repeat (split; [assumption|]). assumption.
Defined.

(** * Further properties of the script *)

(** ** Headers *)

Lemma rstrip_cons (a : ascii) (r : string) :
  rstrip (String a r)
  = match rstrip r with
    | EmptyString => if is_white a then EmptyString else String a EmptyString
    | r' => String a r'
    end.
Proof. reflexivity. Qed.

Lemma rstrip_idemp (s : string) : rstrip (rstrip s) = rstrip s.
Proof.
  induction s as [|a r IH]; [done|].
  rewrite rstrip_cons. destruct (rstrip r) as [|b r'] eqn:Hr.
  - destruct (is_white a) eqn:Ha; [done|]. rewrite rstrip_cons. cbn [rstrip].
    by rewrite Ha.
  - rewrite rstrip_cons, IH. reflexivity.
Qed.

Lemma lstrip_no_lead (s : string) : no_lead (lstrip s).
Proof.
  induction s as [|a r IH]; [done|].
  cbn [lstrip]. by destruct (is_white a) eqn:Ha.
Qed.

Lemma rstrip_no_lead (s : string) : no_lead s -> no_lead (rstrip s).
Proof.
  destruct s as [|a r]; [done|]. rewrite rstrip_cons. cbn [no_lead]. intros Ha.
  destruct (rstrip r); [by rewrite Ha|done].
Qed.

Lemma lstrip_id (s : string) : no_lead s -> lstrip s = s.
Proof. destruct s as [|a r]; [done|]. cbn [no_lead lstrip]. by intros ->. Qed.

Lemma strip_idemp (s : string) : strip (strip s) = strip s.
Proof.
  unfold strip. rewrite (lstrip_id (rstrip (lstrip s))).
  - apply rstrip_idemp.
  - apply rstrip_no_lead, lstrip_no_lead.
Qed.

Lemma rename_with_strip_idemp (df : frame) :
  rename_with strip (rename_with strip df) = rename_with strip df.
Proof.
  unfold rename_with. rewrite <- list_fmap_compose.
  apply list_fmap_ext. intros _ [c v] _. unfold compose, prod_map. simpl.
  by rewrite strip_idemp.
Qed.


Lemma columns_setitem (df : frame) (label : string) (v : column) :
  label ∈ columns df -> columns (setitem df label v) = columns df.
Proof.
  intros Hin. unfold setitem. rewrite decide_True by done.
  unfold columns. rewrite <- list_fmap_compose.
  apply list_fmap_ext. intros _ [c w] _. unfold compose. simpl.
  by destruct (decide (c = label)).
Qed.

Lemma columns_data_rename_with (f : string -> string) (df : frame) :
  (rename_with f df).*2 = df.*2.
Proof.
  unfold rename_with. rewrite <- list_fmap_compose.
  apply list_fmap_ext. by intros _ [c w] _.
Qed.

Lemma resolve_fold_relabels (m : gmap string string) (es : list string)
    (df : frame) (cols0 : list string) :
  (forall k x, m !! k = Some x -> lower x = k) ->
  (forall e, e ∈ es -> e ∈ expected) ->
  Forall2 relabelled cols0 (columns df) ->
  Forall2 relabelled cols0 (columns (foldl (resolve_one m) df es)) /\
  (foldl (resolve_one m) df es).*2 = df.*2.
Proof.
  intros Hm. revert df. induction es as [|e es IH]; intros df Hes Hrel; [done|].
  cbn [foldl].
  assert (Hes' : forall e', e' ∈ es -> e' ∈ expected)
    by (intros e' He'; apply Hes; by right).
  assert (He : e ∈ expected) by (apply Hes; by left).
  unfold resolve_one at 2 4.
  destruct (decide (e ∈ columns df)); [by apply IH|].
  destruct (m !! lower e) as [x|] eqn:Hx; [|by apply IH].
  apply Hm in Hx.
  destruct (IH (rename x e df) Hes') as [H1 H2].
  - unfold rename. rewrite columns_rename_with. apply Forall2_fmap_r.
    eapply Forall2_impl; [exact Hrel|]. intros old mid [Hl Hor]. unfold compose.
    case_decide as Hmid; [subst mid|by split].
    split; [congruence|by right].
  - split; [exact H1|]. rewrite H2. apply columns_data_rename_with.
Qed.

(** The loop over [expected] only relabels: the columns keep their entries
    and their order, a header is left as it is or replaced by the
    canonical name it equals up to case, and nothing happens at all when
    the five canonical names are already there. *)
Theorem resolve_columns_relabels (df : frame) :
  (resolve_columns df).*2 = df.*2 /\
  Forall2 relabelled (columns df) (columns (resolve_columns df)) /\
  ((forall e, e ∈ expected -> e ∈ columns df) -> resolve_columns df = df).
Proof.
  unfold resolve_columns.
  destruct (resolve_fold_relabels (lower_map_of (columns df)) expected df
              (columns df)) as [H1 H2].
  - intros k x Hx. by apply lower_map_of_Some in Hx as [? _].
  - done.
  - apply Forall2_same_length_lookup_2; [done|].
    intros i a b Ha Hb. rewrite Ha in Hb. injection Hb as <-.
    split; [done|by left].
  - split; [exact H2|]. split; [exact H1|].
    intros Hall. generalize (lower_map_of (columns df)). intros m.
    assert (Hfix : forall es, (forall e, e ∈ es -> e ∈ columns df) ->
                     foldl (resolve_one m) df es = df).
    { induction es as [|e es IH]; intros Hes; [done|].
      cbn [foldl]. unfold resolve_one at 2.
      rewrite decide_True by (apply Hes; by left).
      apply IH. intros e' He'. apply Hes. by right. }
    by apply Hfix.
Qed.

(** ** The loader, continued *)

Section LoaderMore.

Variable read_excel : string -> result frame.
Variable strptime : string -> option Z.
Variable parse_number : string -> option Q.
Variable repr : cell -> string.
Variable sort_values_desc : list (cell * Q) -> list (cell * Q).

(** White space around the headers does not matter: a sheet and the same
    sheet with its headers trimmed load to the same table, or fail with
    the same error. *)
Theorem load_data_trimmed_headers (path path' : string) (raw : frame) :
  read_excel path = Ok raw ->
  read_excel path' = Ok (rename_with strip raw) ->
  load_data read_excel strptime parse_number repr path'
  = load_data read_excel strptime parse_number repr path.
Proof.
  intros Hraw Hraw'. unfold load_data.
  rewrite Hraw, Hraw', !result_bind_Ok. cbv zeta.
  rewrite rename_with_strip_idemp. reflexivity.
Qed.


(** [load_data] touches the five canonical columns only: the table has the
    headers of the resolved sheet in their order, every other column with
    the entries it had, and as many rows as the sheet. *)
Theorem load_data_other_columns (path : string) (df : frame) :
  load_data read_excel strptime parse_number repr path = Ok df ->
  exists raw,
    read_excel path = Ok raw /\
    columns df = columns (resolve_columns (rename_with strip raw)) /\
    (forall label, label ∉ expected ->
       getitem df label = getitem (resolve_columns (rename_with strip raw)) label) /\
    (forall n, wf_frame n raw -> wf_frame n df).
Proof.
  intros H. apply load_data_inv in H
    as (raw & t0 & j0 & a0 & k0 & n0 & Hraw & Ht & Hj & Ha & Hk & Hn & ->).
  exists raw. split; [exact Hraw|].
  set (df0 := resolve_columns (rename_with strip raw)) in *.
  apply getitem_Ok_elem_of in Ht as Ht', Hj as Hj', Ha as Ha', Hk as Hk', Hn as Hn'.
  assert (Hcols : forall d l v, columns d = columns df0 -> l ∈ columns df0 ->
                    columns (setitem d l v) = columns df0).
  { intros d l v Hd Hl. rewrite columns_setitem; [done|by rewrite Hd]. }
  split; [|split].
  - by repeat apply Hcols.
  - intros label Hlabel.
    assert (Hne : forall e, e ∈ expected -> e ≠ label) by (intros e He ->; done).
    rewrite !getitem_setitem_ne; [done|apply Hne; by_decide..].
  - intros n Hwf.
    assert (Hwf0 : wf_frame n df0)
      by (apply wf_frame_resolve_columns, wf_frame_rename_with, Hwf).
    repeat apply wf_frame_setitem; try exact Hwf0; rewrite length_fmap;
      eapply wf_frame_getitem; eauto.
Qed.

(** Whatever makes [load_data] fail, a missing column as well as an
    unreadable file, ends the run in the same way: the error is shown in
    an error box after the title and the introduction, the run stops
    there, and no frame is bound. *)
Theorem load_error_stops (e : error) (w : widgets) (s : state) :
  load_data read_excel strptime parse_number repr "dataset_clean.xlsx" = Err e ->
  main read_excel strptime parse_number repr sort_values_desc w s
  = Stopped (State (heap s)
      (page s ++
       [Title "Dashboard Penjualan Coffeeshop";
        Markdown "Dashboard interaktif untuk menganalisis penjualan makanan dan minuman.";
        ErrorBox ("Error membaca dataset: " +:+ error_str e)%string])).
Proof.
  intros Hload.
  unfold main, mbind, script_bind, emit, load_or_stop. rewrite Hload.
  unfold mbind, script_bind, emit, st_stop.
  cbv beta iota delta [heap page]. by rewrite <- !app_assoc.
Qed.

End LoaderMore.

(** ** The date range *)

Lemma foldl_min_elem (l : list Z) (a : Z) : foldl Z.min a l ∈ a :: l.
Proof.
  revert a. induction l as [|y l IH]; intros a; cbn [foldl].
  - apply elem_of_cons. by left.
  - specialize (IH (Z.min a y)). apply elem_of_cons in IH as [IH|IH].
    + rewrite IH. destruct (Z.min_spec a y) as [[_ ->]|[_ ->]].
      * apply elem_of_cons. by left.
      * apply elem_of_cons. right. apply elem_of_cons. by left.
    + apply elem_of_cons. right. apply elem_of_cons. by right.
Qed.

Lemma foldl_max_elem (l : list Z) (a : Z) : foldl Z.max a l ∈ a :: l.
Proof.
  revert a. induction l as [|y l IH]; intros a; cbn [foldl].
  - apply elem_of_cons. by left.
  - specialize (IH (Z.max a y)). apply elem_of_cons in IH as [IH|IH].
    + rewrite IH. destruct (Z.max_spec a y) as [[_ ->]|[_ ->]].
      * apply elem_of_cons. right. apply elem_of_cons. by left.
      * apply elem_of_cons. by left.
    + apply elem_of_cons. right. apply elem_of_cons. by right.
Qed.

Lemma elem_of_ts_values_iff (col : column) (t : Z) : t ∈ ts_values col <-> Ts t ∈ col.
Proof.
  unfold ts_values. rewrite list_elem_of_omap. split.
  - intros (c & Hc & Ht). destruct c; try discriminate. by injection Ht as ->.
  - intros H. by exists (Ts t).
Qed.

(** [min()] and [max()] of the date column: both are missing exactly when
    no row has a date; otherwise they are dates of the column, the
    earliest and the latest one. *)
Theorem series_min_max_bounds (col : column) :
  (series_min col = None <-> forall t, Ts t ∉ col) /\
  (series_max col = None <-> forall t, Ts t ∉ col) /\
  forall lo hi, series_min col = Some lo -> series_max col = Some hi ->
    (Ts lo ∈ col) /\ (Ts hi ∈ col) /\ lo ≤ hi /\
    forall t, Ts t ∈ col -> lo ≤ t ≤ hi.
Proof.
  unfold series_min, series_max.
  destruct (ts_values col) as [|a l] eqn:Hvals.
  - assert (Hnone : forall t, Ts t ∉ col).
    { intros t Ht%elem_of_ts_values_iff. rewrite Hvals in Ht. inversion Ht. }
    split; [done|]. split; [done|]. intros lo hi [=].
  - assert (Ha : Ts a ∈ col).
    { apply elem_of_ts_values_iff. rewrite Hvals. apply elem_of_cons. by left. }
    split; [split; [done|intros H; by destruct (H a)]|].
    split; [split; [done|intros H; by destruct (H a)]|].
    intros lo hi [= <-] [= <-].
    destruct (foldl_min_le l a) as [Hmin1 Hmin2].
    destruct (foldl_max_ge l a) as [Hmax1 Hmax2].
    split; [apply elem_of_ts_values_iff; rewrite Hvals; apply foldl_min_elem|].
    split; [apply elem_of_ts_values_iff; rewrite Hvals; apply foldl_max_elem|].
    split; [lia|].
    intros t Ht%elem_of_ts_values_iff. rewrite Hvals in Ht.
    apply elem_of_cons in Ht as [->|Ht]; [lia|].
    split; [by apply Hmin2|by apply Hmax2].
Qed.

(** ** The filter, continued *)

Lemma select_all_true {A} (mask : list bool) (col : list A) :
  length col = length mask -> Forall (fun b => b = true) mask ->
  select mask col = col.
Proof.
  revert col. induction mask as [|b mask IH]; intros [|x col]; try done.
  intros [= Hlen] [-> Hall]%Forall_cons. cbn [select]. f_equal. by apply IH.
Qed.

Lemma select_rows_all_true (n : nat) (mask : list bool) (df : frame) :
  wf_frame n df -> length mask = n -> Forall (fun b => b = true) mask ->
  select_rows mask df = df.
Proof.
  intros Hwf Hlen Hall. unfold select_rows.
  rewrite <- (list_fmap_id df) at 2. apply Forall_fmap_ext_1.
  eapply Forall_impl; [exact Hwf|]. intros [c col] Hcol. unfold prod_map. simpl in *.
  f_equal. apply select_all_true; [congruence|done].
Qed.

Lemma fmap_filter_all_true {A} (p : A -> bool) (l : list A) :
  Forall (fun b => b = true) (p <$> List.filter p l).
Proof.
  apply Forall_fmap, Forall_forall. intros x Hx%list_elem_of_In.
  by apply List.filter_In in Hx as [_ Hx].
Qed.

Lemma row_in_range_full (df : frame) (tanggal : column) (r : row) :
  is_table df -> getitem df "Tanggal" = Ok tanggal -> r ∈ rows df ->
  row_in_range (Stamp (series_min tanggal)) (Stamp (series_max tanggal)) r
  = has_date r.
Proof.
  intros Htable Hget Hr.
  assert (Hc : row_get r "Tanggal" ∈ tanggal).
  { rewrite <- (table_column_rows df Htable _ _ Hget).
    apply list_elem_of_fmap. by exists r. }
  destruct (table_tanggal _ Htable) as (col & Hget' & Hall).
  rewrite Hget in Hget'. apply Ok_inj in Hget'. subst col.
  rewrite Forall_forall in Hall. specialize (Hall _ Hc).
  unfold has_date, row_in_range. cbn [to_datetime].
  destruct (row_get r "Tanggal") as [| | | |t] eqn:Hcell; try done.
  destruct (series_min_le _ _ Hc) as (lo & -> & Hlo).
  destruct (series_max_ge _ _ Hc) as (hi & -> & Hhi).
  by rewrite bool_decide_true.
Qed.

(** What the filter returns is again a table, with no more rows than the
    one it was given; each of its rows has a date, and that date lies
    between the two bounds; filtering it once more with the same choices
    returns it unchanged. *)
Theorem apply_filter_result (df f : frame) (start_date end_date : pydate)
    (selected_kat : string) (selected_items : list string) :
  is_table df ->
  apply_filter df start_date end_date selected_kat selected_items = Ok f ->
  is_table f /\
  (nrows f <= nrows df)%nat /\
  Forall (fun r => exists t lo hi, row_get r "Tanggal" = Ts t /\
            to_datetime start_date = Some lo /\ to_datetime end_date = Some hi /\
            lo ≤ t ≤ hi) (rows f) /\
  apply_filter f start_date end_date selected_kat selected_items = Ok f.
Proof.
  intros Htable Hf.
  destruct (apply_filter_rows df Htable start_date end_date selected_kat
              selected_items) as (f' & Hf' & Htab & Hrows).
  rewrite Hf in Hf'. apply Ok_inj in Hf'. subst f'.
  split; [exact Htab|]. split; [|split].
  - rewrite <- !rows_length, Hrows. apply List.filter_length_le.
  - rewrite Hrows. apply Forall_forall. intros r Hr%list_elem_of_In.
    apply List.filter_In in Hr as [_ Hr]. unfold row_matches in Hr.
    apply andb_true_iff in Hr as [Hr _]. apply andb_true_iff in Hr as [Hr _].
    by apply row_in_range_spec.
  - unfold apply_filter. rewrite (build_mask_rows f Htab), result_bind_Ok.
    unfold mret, result_ret. f_equal.
    apply (select_rows_all_true (nrows f)); [apply Htab| |].
    + by rewrite length_fmap, rows_length.
    + rewrite Hrows. apply fmap_filter_all_true.
Qed.

Lemma unpack_range_fallback (date_range : list Z) (min_date max_date : option Z) :
  length date_range ≠ 2%nat ->
  unpack_range date_range min_date max_date = (Stamp min_date, Stamp max_date).
Proof. by destruct date_range as [|a [|b [|c l]]]. Qed.

(** While the date picker does not hold two dates (the user has picked
    only the first one), the bounds fall back to the earliest and latest
    date of the table: the date step then keeps every row that has a date,
    and the rows returned are those that pass the other two predicates. *)
Theorem partial_range_shows_all_dates (df : frame) (tanggal : column)
    (date_range : list Z) (selected_kat : string) (selected_items : list string) :
  is_table df -> getitem df "Tanggal" = Ok tanggal ->
  length date_range ≠ 2%nat ->
  exists f,
    apply_filter df
      (unpack_range date_range (series_min tanggal) (series_max tanggal)).1
      (unpack_range date_range (series_min tanggal) (series_max tanggal)).2
      selected_kat selected_items = Ok f /\
    rows f = List.filter
               (fun r => has_date r && row_has_kategori selected_kat r
                         && row_has_item selected_items r)
               (rows df).
Proof.
  intros Htable Hget Hlen. rewrite unpack_range_fallback by done. cbn [fst snd].
  destruct (apply_filter_rows df Htable (Stamp (series_min tanggal))
              (Stamp (series_max tanggal)) selected_kat selected_items)
    as (f & Hf & _ & Hrows).
  exists f. split; [exact Hf|]. rewrite Hrows.
  apply List.filter_ext_in. intros r Hr%list_elem_of_In.
  unfold row_matches. by rewrite (row_in_range_full df tanggal r).
Qed.

(** A bound that comes from the date picker is a calendar date and is
    compared as its midnight: a row stamped later than midnight of the end
    date, on that very day, is not returned. *)
Theorem end_date_is_midnight (df f : frame) (start_day end_day : Z)
    (selected_kat : string) (selected_items : list string) (r : row) (t : Z) :
  is_table df ->
  apply_filter df (Date start_day) (Date end_day) selected_kat selected_items
  = Ok f ->
  row_get r "Tanggal" = Ts t ->
  end_day * ns_per_day < t ->
  r ∉ rows f.
Proof.
  intros Htable Hf Hcell Hlate Hr.
  destruct (apply_filter_rows df Htable (Date start_day) (Date end_day)
              selected_kat selected_items) as (f' & Hf' & _ & Hrows).
  rewrite Hf in Hf'. apply Ok_inj in Hf'. subst f'.
  rewrite Hrows in Hr. apply list_elem_of_In, List.filter_In in Hr as [_ Hr].
  unfold row_matches in Hr.
  apply andb_true_iff in Hr as [Hr _]. apply andb_true_iff in Hr as [Hr _].
  apply row_in_range_spec in Hr as (t' & lo & hi & Ht' & _ & Hhi & Hle).
  rewrite Hcell in Ht'. injection Ht' as <-.
  cbn [to_datetime] in Hhi. injection Hhi as <-. lia.
Qed.

(** ** The option lists of the sidebar *)

Lemma elem_of_unique (col : column) (c : cell) : c ∈ unique col <-> c ∈ col.
Proof.
  induction col as [|x col IH]; [done|]. cbn [unique].
  rewrite !elem_of_cons, list_elem_of_In, List.filter_In, <- list_elem_of_In, IH.
  rewrite negb_true_iff, bool_decide_eq_false.
  destruct (decide (c = x)); intuition.
Qed.

Lemma NoDup_list_filter {A} (p : A -> bool) (l : list A) :
  NoDup l -> NoDup (List.filter p l).
Proof.
  induction 1 as [|x l Hx Hnd IH]; [constructor|]. cbn [List.filter].
  destruct (p x); [|exact IH]. apply NoDup_cons. split; [|exact IH].
  intros Hin%list_elem_of_In. apply List.filter_In in Hin as [Hin _].
  by apply list_elem_of_In in Hin.
Qed.

Lemma NoDup_unique (col : column) : NoDup (unique col).
Proof.
  induction col as [|x col IH]; [constructor|]. cbn [unique].
  apply NoDup_cons. split.
  - intros Hx%list_elem_of_In. apply List.filter_In in Hx as [_ Hx].
    apply negb_true_iff, bool_decide_eq_false in Hx. done.
  - by apply NoDup_list_filter.
Qed.

Lemma elem_of_texts (l : list cell) (s : string) : s ∈ texts l <-> Str s ∈ l.
Proof.
  unfold texts. rewrite list_elem_of_omap. split.
  - intros (c & Hc & Hs). destruct c; try discriminate. by injection Hs as ->.
  - intros H. by exists (Str s).
Qed.

Lemma NoDup_texts (l : list cell) : NoDup l -> NoDup (texts l).
Proof.
  induction 1 as [|c l Hc Hnd IH]; [constructor|].
  unfold texts. cbn [omap list_omap]. fold (texts l).
  destruct c as [| | |s|]; cbn [text_of]; try exact IH.
  apply NoDup_cons. split; [|exact IH]. by rewrite elem_of_texts.
Qed.

Lemma sorted_unique_texts (col : column) :
  Sorted String.le (sorted (texts (unique col))) /\
  NoDup (sorted (texts (unique col))) /\
  forall s, s ∈ sorted (texts (unique col)) <-> Str s ∈ col.
Proof.
  unfold sorted.
  pose proof (merge_sort_Permutation String.le (texts (unique col))) as Hperm.
  split; [apply Sorted_merge_sort; apply _|]. split.
  - rewrite Hperm. apply NoDup_texts, NoDup_unique.
  - intros s. by rewrite Hperm, elem_of_texts, elem_of_unique.
Qed.

(** The category box offers "Semua" first and then the categories of the
    table, each one once, in ascending order; the item box offers the item
    names of the table, each one once, in ascending order.  Neither list
    can fail to be built for a table. *)
Theorem sidebar_option_lists (df : frame) :
  is_table df ->
  exists kategori nama ks items,
    getitem df "Kategori" = Ok kategori /\
    getitem df "Nama_Item" = Ok nama /\
    kategori_list df = Ok ("Semua"%string :: ks) /\
    item_list df = Ok items /\
    Sorted String.le ks /\ NoDup ks /\ (forall s, s ∈ ks <-> Str s ∈ kategori) /\
    Sorted String.le items /\ NoDup items /\ (forall s, s ∈ items <-> Str s ∈ nama).
Proof.
  intros Htable.
  destruct (table_kategori _ Htable) as (kategori & Hk & _).
  destruct (table_nama_item _ Htable) as (nama & Hn & _).
  exists kategori, nama, (sorted (texts (unique kategori))),
    (sorted (texts (unique nama))).
  split; [exact Hk|]. split; [exact Hn|].
  split; [unfold kategori_list; by rewrite Hk, result_bind_Ok|].
  split; [unfold item_list; by rewrite Hn, result_bind_Ok|].
  destruct (sorted_unique_texts kategori) as (K1 & K2 & K3).
  destruct (sorted_unique_texts nama) as (N1 & N2 & N3).
  done.
Qed.

(** Leaving every item selected, which is how the item box starts, gives
    the same table as clearing the box: a choice that contains all item
    names of the table filters nothing. *)
Theorem all_items_same_as_none (df : frame) (items selected_items : list string)
    (start_date end_date : pydate) (selected_kat : string) :
  is_table df -> item_list df = Ok items ->
  (forall s, s ∈ items -> s ∈ selected_items) ->
  apply_filter df start_date end_date selected_kat selected_items
  = apply_filter df start_date end_date selected_kat [].
Proof.
  intros Htable Hitems Hall.
  destruct (table_nama_item _ Htable) as (nama & Hn & Htext).
  unfold item_list in Hitems. rewrite Hn, result_bind_Ok in Hitems.
  apply Ok_inj in Hitems. subst items.
  unfold apply_filter. rewrite !(build_mask_rows df Htable). do 2 f_equal.
  apply list_fmap_ext. intros i r Hr.
  unfold row_matches. f_equal.
  unfold row_has_item, row_isin. cbn [truthy negb orb].
  assert (Hc : row_get r "Nama_Item" ∈ nama).
  { rewrite <- (table_column_rows df Htable _ _ Hn).
    apply list_elem_of_fmap. exists r. split; [done|].
    by apply list_elem_of_lookup_2 in Hr. }
  rewrite Forall_forall in Htext. pose proof (Htext _ Hc) as Hs.
  destruct (row_get r "Nama_Item") as [| | |s|]; try done.
  assert (s ∈ selected_items) by (by apply Hall, sorted_unique_texts).
  cbn [cell_isin]. rewrite bool_decide_true by done. apply orb_true_r.
Qed.

(** ** Aggregates, continued *)

Lemma Qle_bool_total (x y : Q) : Qle_bool x y = true \/ Qle_bool y x = true.
Proof.
  rewrite !Qle_bool_iff. destruct (Qlt_le_dec x y) as [H|H]; [left|by right].
  by apply Qlt_le_weak.
Qed.

Lemma Qle_bool_trans (x y z : Q) :
  Qle_bool x y = true -> Qle_bool y z = true -> Qle_bool x z = true.
Proof. rewrite !Qle_bool_iff. apply Qle_trans. Qed.

#[global] Instance key_le_total : Total key_le.
Proof.
  intros [a ?] [b ?]. unfold key_le. cbn [fst].
  destruct a as [|x|x|x|x], b as [|y|y|y|y]; cbn [cell_leb]; auto;
    try apply Qle_bool_total.
  - apply String.leb_total.
  - rewrite !bool_decide_eq_true. lia.
Qed.

#[global] Instance key_le_trans : Transitive key_le.
Proof.
  intros [a ?] [b ?] [c ?]. unfold key_le. cbn [fst].
  destruct a as [|x|x|x|x], b as [|y|y|y|y], c as [|z|z|z|z];
    cbn [cell_leb]; try done; try apply Qle_bool_trans.
  - intros H1 H2. apply Is_true_true. apply Is_true_true in H1, H2.
    exact (transitivity (R := String.le) H1 H2).
  - rewrite !bool_decide_eq_true. lia.
Qed.

Lemma StronglySorted_lookup_lt {A} (R : relation A) (l : list A) (i j : nat)
    (a b : A) :
  StronglySorted R l -> (i < j)%nat -> l !! i = Some a -> l !! j = Some b ->
  R a b.
Proof.
  intros Hss. revert i j. induction Hss as [|x l Hss IH Hall]; intros i j Hij Hi Hj.
  - discriminate.
  - destruct j as [|j]; [lia|]. destruct i as [|i].
    + injection Hi as <-. rewrite Forall_forall in Hall.
      apply Hall. by eapply list_elem_of_lookup_2.
    + apply (IH i j); [lia|done|done].
Qed.

(** The groups come in ascending order of their key, each key once; for
    the daily totals this means strictly ascending dates, the order in
    which the trend line is drawn. *)
Theorem groups_in_key_order (df : frame) (group_key measure : string)
    (out : list (cell * Q)) :
  aggregate_sum df group_key measure = Ok out ->
  StronglySorted key_le out /\
  NoDup out.*1 /\
  forall (i j : nat) (t t' : Z) (s s' : Q),
    (i < j)%nat -> out !! i = Some (Ts t, s) -> out !! j = Some (Ts t', s') ->
    t < t'.
Proof.
  unfold aggregate_sum. intros H.
  apply result_bind_inv in H as (keys & _ & H).
  apply result_bind_inv in H as (vals & _ & H).
  apply Ok_inj in H. subst out.
  assert (Hss : StronglySorted key_le (groupby_sum keys vals))
    by (apply StronglySorted_merge_sort; apply _).
  destruct (groupby_sum_groups keys vals) as (Hnd & _ & _).
  split; [exact Hss|]. split; [exact Hnd|].
  intros i j t t' s s' Hij Hi Hj.
  pose proof (StronglySorted_lookup_lt _ _ _ _ _ _ Hss Hij Hi Hj) as Hle.
  unfold key_le in Hle. cbn [fst cell_leb] in Hle.
  apply bool_decide_eq_true in Hle.
  assert (t ≠ t'); [|lia]. intros ->.
  assert (i = j); [|lia].
  apply (NoDup_lookup _ i j (Ts t') Hnd); rewrite list_lookup_fmap.
  - by rewrite Hi.
  - by rewrite Hj.
Qed.







(** ** The run of the page *)

Lemma filter_step_run (df : loc) (d : frame) (w : widgets) (s : state)
    (tanggal : column) :
  heap s !! df = Some d -> is_table d -> getitem d "Tanggal" = Ok tanggal ->
  filter_step df w s
  = Done (fresh (dom (heap s)))
      (State
         (<[fresh (dom (heap s)) :=
              select_rows
                (row_matches
                   (unpack_range (date_range w) (series_min tanggal)
                      (series_max tanggal)).1
                   (unpack_range (date_range w) (series_min tanggal)
                      (series_max tanggal)).2
                   (selected_kat w) (selected_items w) <$> rows d) d]> (heap s))
         (page s ++
          [Markdown ("**Jumlah data setelah filter: "
             +:+ pretty (nrows (select_rows
                   (row_matches
                      (unpack_range (date_range w) (series_min tanggal)
                         (series_max tanggal)).1
                      (unpack_range (date_range w) (series_min tanggal)
                         (series_max tanggal)).2
                      (selected_kat w) (selected_items w) <$> rows d) d))
             +:+ " baris**")%string])).
Proof.
  intros Hdf Htable Hget.
  unfold filter_step. rewrite (bind_load _ _ _ _ Hdf), Hget, bind_lift_Ok.
  destruct (unpack_range (date_range w) (series_min tanggal) (series_max tanggal))
    as [start_date end_date].
  rewrite (build_mask_rows d Htable), bind_lift_Ok, bind_alloc.
  erewrite bind_load; [|apply lookup_insert_eq].
  rewrite bind_emit. reflexivity.
Qed.

Lemma nrows_select_rows (p : row -> bool) (d : frame) :
  is_table d ->
  nrows (select_rows (p <$> rows d) d) = length (List.filter p (rows d)).
Proof.
  intros Htable. by rewrite <- (rows_select_rows d Htable), rows_length.
Qed.

(** The line under the title area counts the rows that match: the filter
    step adds exactly one line to the page, and the number in it is the
    number of rows of the table that pass the predicates, 0 when none
    does. *)
Theorem filter_step_reports_count (df : loc) (d : frame) (w : widgets)
    (s : state) (tanggal : column) :
  heap s !! df = Some d -> is_table d -> getitem d "Tanggal" = Ok tanggal ->
  exists filtered s',
    filter_step df w s = Done filtered s' /\
    page s' = page s ++
      [Markdown ("**Jumlah data setelah filter: "
         +:+ pretty (length (List.filter
               (row_matches
                  (unpack_range (date_range w) (series_min tanggal)
                     (series_max tanggal)).1
                  (unpack_range (date_range w) (series_min tanggal)
                     (series_max tanggal)).2
                  (selected_kat w) (selected_items w)) (rows d)))
         +:+ " baris**")%string].
Proof.
  intros Hdf Htable Hget. eexists _, _.
  split; [by apply filter_step_run|].
  cbn [page]. by rewrite (nrows_select_rows _ d Htable).
Qed.

Lemma aggregate_sum_table (f : frame) (group_key : string) (keys : column) :
  is_table f -> getitem f group_key = Ok keys ->
  exists vals,
    getitem f "Total_Penjualan" = Ok vals /\
    aggregate_sum f group_key "Total_Penjualan" = Ok (groupby_sum keys vals) /\
    (nrows f = 0%nat -> groupby_sum keys vals = []).
Proof.
  intros Htable Hk. destruct (table_total _ Htable) as (vals & Hv & _).
  exists vals. split; [exact Hv|]. split.
  - unfold aggregate_sum. by rewrite Hk, Hv, !result_bind_Ok.
  - intros Hzero.
    pose proof (wf_frame_getitem _ _ _ _ (table_wf _ Htable) Hk) as Hlen.
    rewrite Hzero in Hlen. by destruct keys.
Qed.

Section Page.

Variable read_excel : string -> result frame.
Variable strptime : string -> option Z.
Variable parse_number : string -> option Q.
Variable repr : cell -> string.
Variable sort_values_desc : list (cell * Q) -> list (cell * Q).

Lemma bind_lift_mret {A B} (a : A) (k : A -> script B) (s : state) :
  (lift (mret a) ≫= k) s = k a s.
Proof. reflexivity. Qed.

Lemma charts_step_run (filtered : loc) (f : frame) (w : widgets) (s : state)
    (k t n vals : column) :
  heap s !! filtered = Some f ->
  getitem f "Kategori" = Ok k -> getitem f "Tanggal" = Ok t ->
  getitem f "Nama_Item" = Ok n -> getitem f "Total_Penjualan" = Ok vals ->
  charts_step sort_values_desc filtered w s
  = Done tt (State (heap s)
      (page s ++
       [Subheader "Total Penjualan per Kategori"; BarChart (groupby_sum k vals);
        Subheader "Tren Penjualan Harian"; LineChart (groupby_sum t vals);
        Subheader ("Top " +:+ pretty (top_n_slider w)
                   +:+ " Item Berdasarkan Total Penjualan")%string;
        PieChart (top_n sort_values_desc (groupby_sum n vals) (top_n_slider w));
        Subheader "Scatter Plot: Jumlah vs Total Penjualan"; ScatterPlot f;
        Subheader "Distribusi Total Penjualan"; Histogram f 20])).
Proof.
  intros Hf Hk Ht Hn Hv.
  unfold charts_step, aggregate_sum.
  rewrite (bind_load _ _ _ _ Hf), bind_emit.
  rewrite Hk, Hv, !result_bind_Ok, bind_lift_mret, !bind_emit.
  rewrite Ht, !result_bind_Ok, bind_lift_mret, !bind_emit.
  rewrite Hn, !result_bind_Ok, bind_lift_mret, !bind_emit.
  unfold mret, script_ret. cbn [heap page].
  rewrite <- !app_assoc. reflexivity.
Qed.

(** The chart step cannot fail on a table, whatever the sort does with
    ties and however few rows are left: it draws the five charts from the
    frame behind [filtered], in the order bar, line, pie, scatter,
    histogram, and binds or changes no frame.  With no row left the three
    aggregates are empty. *)
Theorem charts_step_draws (filtered : loc) (f : frame) (w : widgets) (s : state) :
  heap s !! filtered = Some f -> is_table f ->
  exists bar line pie,
    aggregate_sum f "Kategori" "Total_Penjualan" = Ok bar /\
    aggregate_sum f "Tanggal" "Total_Penjualan" = Ok line /\
    aggregate_sum f "Nama_Item" "Total_Penjualan" = Ok pie /\
    charts_step sort_values_desc filtered w s
    = Done tt (State (heap s)
        (page s ++
         [Subheader "Total Penjualan per Kategori"; BarChart bar;
          Subheader "Tren Penjualan Harian"; LineChart line;
          Subheader ("Top " +:+ pretty (top_n_slider w)
                     +:+ " Item Berdasarkan Total Penjualan")%string;
          PieChart (top_n sort_values_desc pie (top_n_slider w));
          Subheader "Scatter Plot: Jumlah vs Total Penjualan"; ScatterPlot f;
          Subheader "Distribusi Total Penjualan"; Histogram f 20])) /\
    (nrows f = 0%nat -> bar = [] /\ line = [] /\ pie = []).
Proof.
  intros Hf Htable.
  destruct (table_kategori _ Htable) as (k & Hk & _).
  destruct (table_tanggal _ Htable) as (t & Ht & _).
  destruct (table_nama_item _ Htable) as (n & Hn & _).
  destruct (aggregate_sum_table f _ _ Htable Hk) as (vals & Hv & Hbar & Zbar).
  destruct (aggregate_sum_table f _ _ Htable Ht) as (vals' & Hv' & Hline & Zline).
  destruct (aggregate_sum_table f _ _ Htable Hn) as (vals'' & Hv'' & Hpie & Zpie).
  rewrite Hv in Hv', Hv''. apply Ok_inj in Hv', Hv''. subst vals' vals''.
  exists (groupby_sum k vals), (groupby_sum t vals), (groupby_sum n vals).
  split; [exact Hbar|]. split; [exact Hline|]. split; [exact Hpie|].
  split; [by apply charts_step_run|by auto].
Qed.


End Page.


Lemma table_step_run (filtered : loc) (f : frame) (s : state) (total : column) :
  heap s !! filtered = Some f ->
  getitem f "Total_Penjualan" = Ok total -> Forall is_number total ->
  table_step filtered s
  = Done (fresh (dom (heap s)))
      (State
         (<[fresh (dom (heap s)) :=
              setitem f "Total_Penjualan"
                ((fun c => Str (format_number (cell_num c))) <$> total)]> (heap s))
         (page s ++
          [Subheader "Tabel Data";
           DataTable (setitem f "Total_Penjualan"
                        ((fun c => Str (format_number (cell_num c))) <$> total))])).
Proof.
  intros Hf Hget Hnum.
  unfold table_step. rewrite bind_emit.
  erewrite bind_load; [|exact Hf].
  rewrite bind_alloc. cbn [heap page].
  erewrite bind_load; [|apply lookup_insert_eq].
  rewrite Hget, bind_lift_Ok, (series_map_format _ Hnum), bind_lift_Ok.
  erewrite bind_store_column; [|apply lookup_insert_eq].
  cbn [heap page]. rewrite insert_insert_eq.
  erewrite bind_load; [|apply lookup_insert_eq].
  rewrite bind_emit. cbn [heap page]. by rewrite <- app_assoc.
Qed.

(** The table shown differs from the filtered frame in the amount column
    only: it has the same headers in the same order, every other column
    with the same entries, and as many rows; it is the last thing the
    table step puts on the page, after its heading. *)
Theorem display_table_other_columns (filtered : loc) (f : frame) (s : state) :
  heap s !! filtered = Some f -> is_table f ->
  exists display_df disp s',
    table_step filtered s = Done display_df s' /\
    heap s' !! display_df = Some disp /\
    columns disp = columns f /\
    (forall label, label ≠ "Total_Penjualan"%string ->
       getitem disp label = getitem f label) /\
    wf_frame (nrows f) disp /\
    page s' = page s ++ [Subheader "Tabel Data"; DataTable disp].
Proof.
  intros Hf Htable.
  destruct (table_total _ Htable) as (total & Hget & Hnum).
  eexists _, _, _. split; [by apply (table_step_run filtered f s total)|].
  cbn [heap page]. split; [apply lookup_insert_eq|].
  split; [apply columns_setitem; by eapply getitem_Ok_elem_of|].
  split; [intros label Hne; by apply getitem_setitem_ne|].
  split; [|done].
  apply wf_frame_setitem; [apply Htable|].
  rewrite length_fmap. by eapply wf_frame_getitem; [apply Htable|].
Qed.

Section WholeRun.

Variable read_excel : string -> result frame.
Variable strptime : string -> option Z.
Variable parse_number : string -> option Q.
Variable repr : cell -> string.
Variable sort_values_desc : list (cell * Q) -> list (cell * Q).


End WholeRun.

(** ** The amounts of the display table *)

Lemma Qfloor_unique (q : Q) (z : Z) :
  (inject_Z z <= q)%Q -> (q < inject_Z (z + 1))%Q -> Qfloor q = z.
Proof.
  intros Hlo Hhi.
  pose proof (Qfloor_resp_le _ _ Hlo) as H1. rewrite Qfloor_Z in H1.
  pose proof (Qfloor_le q) as H2.
  assert (H3 : (inject_Z (Qfloor q) < inject_Z (z + 1))%Q)
    by (eapply Qle_lt_trans; eassumption).
  rewrite <- Zlt_Qlt in H3. lia.
Qed.

(** Rounding for the display: the result is a nearest integer, an exact
    half goes to the even neighbour, and a whole amount is left as it
    is. *)
Theorem round_half_even_nearest (q : Q) :
  (inject_Z (round_half_even q) - (1 # 2) <= q)%Q /\
  (q <= inject_Z (round_half_even q) + (1 # 2))%Q /\
  (forall z, (q == inject_Z z + (1 # 2))%Q -> Z.even (round_half_even q) = true) /\
  (forall z, (q == inject_Z z)%Q -> round_half_even q = z).
Proof.
  unfold round_half_even.
  pose proof (Qfloor_le q) as Hlo. pose proof (Qlt_floor q) as Hhi.
  rewrite inject_Z_plus in Hhi.
  change (inject_Z 1) with 1%Q in Hhi.
  set (f := Qfloor q) in *.
  split; [|split; [|split]].
  - destruct (q - inject_Z f ?= 1 # 2)%Q eqn:Hc.
    + apply Qeq_alt in Hc. destruct (Z.even f);
        rewrite ?inject_Z_plus; change (inject_Z 1) with 1%Q; lra.
    + lra.
    + apply Qgt_alt in Hc. rewrite inject_Z_plus.
      change (inject_Z 1) with 1%Q. lra.
  - destruct (q - inject_Z f ?= 1 # 2)%Q eqn:Hc.
    + apply Qeq_alt in Hc. destruct (Z.even f);
        rewrite ?inject_Z_plus; change (inject_Z 1) with 1%Q; lra.
    + apply Qlt_alt in Hc. lra.
    + rewrite inject_Z_plus. change (inject_Z 1) with 1%Q. lra.
  - intros z Hz.
    assert (Hf : f = z).
    { apply Qfloor_unique; rewrite ?inject_Z_plus;
        change (inject_Z 1) with 1%Q; lra. }
    assert (Hc : (q - inject_Z f ?= 1 # 2)%Q = Eq).
    { apply (proj1 (Qeq_alt _ _)). rewrite Hf. lra. }
    rewrite Hc. destruct (Z.even f) eqn:He; [done|].
    rewrite Z.even_add, He. reflexivity.
  - intros z Hz.
    assert (Hf : f = z).
    { apply Qfloor_unique; rewrite ?inject_Z_plus;
        change (inject_Z 1) with 1%Q; lra. }
    assert (Hc : (q - inject_Z f ?= 1 # 2)%Q = Lt).
    { apply (proj1 (Qlt_alt _ _)). rewrite Hf. lra. }
    by rewrite Hc.
Qed.

Lemma without_commas_id (l : list ascii) :
  (","%char ∉ l) -> without_commas l = l.
Proof.
  unfold without_commas. induction l as [|a l IH]; [done|].
  intros [Ha Hl]%not_elem_of_cons. cbn [List.filter].
  rewrite bool_decide_false by congruence. cbn [negb]. by rewrite IH.
Qed.

Lemma without_commas_app (l k : list ascii) :
  without_commas (l ++ k) = without_commas l ++ without_commas k.
Proof. apply List.filter_app. Qed.

Lemma without_commas_reverse (l : list ascii) :
  without_commas (reverse l) = reverse (without_commas l).
Proof.
  induction l as [|a l IH]; [done|].
  rewrite reverse_cons, without_commas_app, IH.
  unfold without_commas at 2 3. cbn [List.filter].
  destruct (negb (bool_decide (a = ","%char))).
  - by rewrite reverse_cons.
  - by rewrite app_nil_r.
Qed.

Lemma group3_spec (fuel : nat) (l : list ascii) :
  (length l <= fuel)%nat -> (","%char ∉ l) ->
  without_commas (group3 fuel l) = l /\
  length (group3 fuel l) = (length l + (length l - 1) / 3)%nat /\
  forall i : nat,
    group3 fuel l !! i = Some ","%char <->
    (i mod 4 = 3 /\ i < length (group3 fuel l))%nat.
Proof.
  revert l. induction fuel as [|fuel IH]; intros l Hlen Hno.
  { destruct l; [|cbn in Hlen; lia]. cbn. split; [done|]. split; [done|].
    intros i. split; [done|]. cbn. lia. }
  assert (Hshort : (length l <= 3)%nat ->
            without_commas l = l /\
            length l = (length l + (length l - 1) / 3)%nat /\
            forall i : nat, l !! i = Some ","%char <->
                            (i mod 4 = 3 /\ i < length l)%nat).
  { intros H3. split; [by apply without_commas_id|]. split.
    - assert ((length l - 1) / 3 = 0)%nat; [|lia].
      apply Nat.div_small. lia.
    - intros i. split.
      + intros Hi. destruct Hno. by eapply list_elem_of_lookup_2.
      + intros [Hmod Hi]. rewrite Nat.mod_small in Hmod by lia. lia. }
  destruct l as [|a [|b [|c [|d rest]]]];
    try (apply Hshort; cbn; lia).
  change (group3 (S fuel) (a :: b :: c :: d :: rest))
    with (a :: b :: c :: ","%char :: group3 fuel (d :: rest)).
  apply not_elem_of_cons in Hno as [Ha Hno].
  apply not_elem_of_cons in Hno as [Hb Hno].
  apply not_elem_of_cons in Hno as [Hc Hno].
  destruct (IH (d :: rest)) as (I1 & I2 & I3); [cbn in *; lia|done|].
  split; [|split].
  - unfold without_commas in *. cbn [List.filter].
    rewrite !bool_decide_false by congruence. cbn [negb].
    rewrite bool_decide_true by done. cbn [negb]. by rewrite I1.
  - cbn [length]. rewrite I2. cbn [length].
    replace (S (S (S (S (length rest)))) - 1)%nat with (3 + length rest)%nat by lia.
    replace (S (length rest) - 1)%nat with (length rest) by lia.
    replace (3 + length rest)%nat with (length rest + 1 * 3)%nat by lia.
    rewrite Nat.div_add by lia. lia.
  - intros i. cbn [length].
    destruct i as [|[|[|[|j]]]]; cbn [lookup list_lookup].
    + split; [intros [= ?]; congruence|cbn; lia].
    + split; [intros [= ?]; congruence|cbn; lia].
    + split; [intros [= ?]; congruence|cbn; lia].
    + split; [intros _; cbn; lia|done].
    + change (group3 fuel (d :: rest) !! j = Some ","%char <->
              (S (S (S (S j))) mod 4 = 3
               /\ S (S (S (S j))) < S (S (S (S (length (group3 fuel (d :: rest)))))))%nat).
      rewrite I3.
      replace (S (S (S (S j)))) with (j + 1 * 4)%nat by lia.
      rewrite Nat.Div0.mod_add. lia.
Qed.

(** The thousands separators: removing the commas gives the digits back;
    there is one comma for every full group of three digits that has a
    digit before it; and, counting from the right, exactly every fourth
    character is a comma. *)
Theorem thousands_groups (digits : string) :
  (","%char ∉ list_ascii_of_string digits) ->
  without_commas (list_ascii_of_string (thousands digits))
  = list_ascii_of_string digits /\
  length (list_ascii_of_string (thousands digits))
  = (String.length digits + (String.length digits - 1) / 3)%nat /\
  forall i : nat,
    reverse (list_ascii_of_string (thousands digits)) !! i = Some ","%char <->
    (i mod 4 = 3 /\ i < length (list_ascii_of_string (thousands digits)))%nat.
Proof.
  intros Hno. unfold thousands. cbv zeta.
  rewrite list_ascii_of_string_of_list_ascii.
  set (l := reverse (list_ascii_of_string digits)).
  assert (Hl : length l = String.length digits).
  { unfold l. rewrite length_reverse. clear.
    induction digits as [|a r IH]; [done|]. cbn. by rewrite IH. }
  destruct (group3_spec (length l) l) as (G1 & G2 & G3);
    [done|unfold l; by rewrite elem_of_reverse|].
  split; [|split].
  - rewrite without_commas_reverse, G1. apply reverse_involutive.
  - by rewrite length_reverse, G2, Hl.
  - intros i. by rewrite reverse_involutive, length_reverse.
Qed.

Lemma pretty_N_char_digit (y : N) : is_digit (pretty_N_char y).
Proof.
  unfold pretty_N_char, is_digit. repeat case_match; vm_compute; lia.
Qed.

Lemma pretty_N_go_digits (x : N) (s : string) :
  Forall is_digit (list_ascii_of_string s) ->
  Forall is_digit (list_ascii_of_string (pretty_N_go x s)).
Proof.
  revert s. induction (N.lt_wf_0 x) as [x _ IH]; intros s Hs.
  destruct (decide (x = 0%N)) as [->|Hx]; [by rewrite pretty_N_go_0|].
  rewrite pretty_N_go_step by lia. apply IH.
  - apply N.div_lt; lia.
  - cbn [list_ascii_of_string]. constructor; [apply pretty_N_char_digit|done].
Qed.

Lemma pretty_abs_digits (z : Z) :
  Forall is_digit (list_ascii_of_string (pretty (Z.abs z))).
Proof.
  assert (HN : forall x : N, Forall is_digit (list_ascii_of_string (pretty x))).
  { intros x. unfold pretty, pretty_N. destruct (decide (x = 0%N)).
    - repeat constructor; vm_compute; lia.
    - apply pretty_N_go_digits. constructor. }
  destruct z as [|p|p]; cbn [Z.abs].
  - repeat constructor; vm_compute; lia.
  - apply (HN (Npos p)).
  - apply (HN (Npos p)).
Qed.

Lemma digits_no_comma (l : list ascii) : Forall is_digit l -> ","%char ∉ l.
Proof.
  intros Hall Hin. rewrite Forall_forall in Hall. specialize (Hall _ Hin).
  unfold is_digit in Hall. vm_compute in Hall. lia.
Qed.

Lemma list_ascii_of_string_app (s1 s2 : string) :
  list_ascii_of_string (s1 +:+ s2)
  = list_ascii_of_string s1 ++ list_ascii_of_string s2.
Proof.
  induction s1 as [|a s1 IH]; [done|].
  change (String a s1 +:+ s2)%string with (String a (s1 +:+ s2)).
  cbn [list_ascii_of_string]. by rewrite IH.
Qed.

(** The text shown for an amount is its rounded value in decimal digits
    with commas put in: taking the commas out leaves the sign and the
    plain digits, and for a whole amount, negative or not, exactly the
    decimal writing of that amount. *)
Theorem format_number_plain (q : Q) :
  string_of_list_ascii (without_commas (list_ascii_of_string (format_number q)))
  = ((if Qle_bool 0 q then "" else "-")
     +:+ pretty (Z.abs (round_half_even q)))%string /\
  forall z : Z,
    string_of_list_ascii
      (without_commas (list_ascii_of_string (format_number (inject_Z z))))
    = pretty z.
Proof.
  assert (Hplain : forall q : Q,
    string_of_list_ascii (without_commas (list_ascii_of_string (format_number q)))
    = ((if Qle_bool 0 q then "" else "-")
       +:+ pretty (Z.abs (round_half_even q)))%string).
  { intros q'. unfold format_number.
    rewrite list_ascii_of_string_app, without_commas_app.
    pose proof (pretty_abs_digits (round_half_even q')) as Hd.
    apply digits_no_comma in Hd.
    destruct (group3_spec
                (length (reverse (list_ascii_of_string
                                    (pretty (Z.abs (round_half_even q'))))))
                (reverse (list_ascii_of_string
                            (pretty (Z.abs (round_half_even q'))))))
      as (G1 & _ & _); [done|by rewrite elem_of_reverse|].
    unfold thousands. cbv zeta.
    rewrite list_ascii_of_string_of_list_ascii, without_commas_reverse, G1.
    rewrite reverse_involutive.
    rewrite <- (string_of_list_ascii_of_string
                  ((if Qle_bool 0 q' then "" else "-")
                   +:+ pretty (Z.abs (round_half_even q')))%string).
    rewrite list_ascii_of_string_app. f_equal. f_equal.
    by destruct (Qle_bool 0 q'). }
  split; [apply Hplain|].
  intros z. rewrite Hplain.
  assert (Hr : round_half_even (inject_Z z) = z).
  { unfold round_half_even. rewrite Qfloor_Z.
    assert (Hc : (inject_Z z - inject_Z z ?= 1 # 2)%Q = Lt)
      by (apply (proj1 (Qlt_alt _ _)); lra).
    by rewrite Hc. }
  rewrite Hr. destruct z as [|p|p].
  - reflexivity.
  - reflexivity.
  - reflexivity.
Qed.

(** * The further properties on the sample sheets *)

Lemma resolve_columns_relabels_witness :
  resolve_columns sample_table = sample_table.
Proof.
  refine (proj2 (proj2 (resolve_columns_relabels sample_table)) _).
  apply (proj1 (Forall_forall (fun e => e ∈ columns sample_table) expected)).
  by_decide.
Defined.

Lemma load_data_trimmed_headers_witness :
  load_data trimmed_read_excel sample_strptime sample_parse_number sample_repr
    "trimmed.xlsx"
  = load_data trimmed_read_excel sample_strptime sample_parse_number sample_repr
      "dataset_clean.xlsx".
Proof.
  apply (load_data_trimmed_headers trimmed_read_excel sample_strptime
           sample_parse_number sample_repr "dataset_clean.xlsx" "trimmed.xlsx"
           sample_sheet).
  - reflexivity.
  - reflexivity.
Defined.


Lemma load_data_other_columns_witness :
  exists raw,
    sample_read_excel "dataset_clean.xlsx" = Ok raw /\
    columns sample_table = columns (resolve_columns (rename_with strip raw)).
Proof.
  destruct (load_data_other_columns sample_read_excel sample_strptime
              sample_parse_number sample_repr "dataset_clean.xlsx" sample_table)
    as (raw & H1 & H2 & _).
  - vm_compute. reflexivity.
  - exists raw. split; assumption.
Defined.

Lemma load_error_stops_witness :
  main incomplete_read_excel sample_strptime sample_parse_number sample_repr
    sort_ties_reversed (Widgets [] "Semua" [] 8) (State ∅ [])
  = Stopped (State ∅
      ([] ++
       [Title "Dashboard Penjualan Coffeeshop";
        Markdown "Dashboard interaktif untuk menganalisis penjualan makanan dan minuman.";
        ErrorBox ("Error membaca dataset: " +:+ error_str (KeyError "Jumlah"))%string])).
Proof.
  apply (load_error_stops incomplete_read_excel sample_strptime
           sample_parse_number sample_repr sort_ties_reversed
           (KeyError "Jumlah") (Widgets [] "Semua" [] 8) (State ∅ [])).
  vm_compute. reflexivity.
Defined.

Lemma series_min_max_bounds_witness :
  Ts 1704067200000000000
    ∈ [Ts 1704067200000000000; Ts 1704153600000000000; Null] /\
  Ts 1704153600000000000
    ∈ [Ts 1704067200000000000; Ts 1704153600000000000; Null] /\
  1704067200000000000 ≤ 1704153600000000000.
Proof.
  destruct (proj2 (proj2 (series_min_max_bounds
              [Ts 1704067200000000000; Ts 1704153600000000000; Null]))
              1704067200000000000 1704153600000000000)
    as (H1 & H2 & H3 & _).
  - reflexivity.
  - reflexivity.
  - split; [exact H1|]. split; [exact H2|exact H3].
Defined.

Lemma apply_filter_result_witness :
  is_table (select_rows [true; false; false] sample_table) /\
  (nrows (select_rows [true; false; false] sample_table) <= nrows sample_table)%nat.
Proof.
  destruct (apply_filter_result sample_table
              (select_rows [true; false; false] sample_table)
              (Date 19723) (Date 19724) "Coffee" ["Latte"]%string)
    as (H1 & H2 & _).
  - split; [repeat constructor|table_column..].
  - vm_compute. reflexivity.
  - split; assumption.
Defined.

Lemma partial_range_shows_all_dates_witness :
  exists f,
    apply_filter sample_table
      (unpack_range [19723]
         (series_min [Ts 1704067200000000000; Ts 1704153600000000000; Null])
         (series_max [Ts 1704067200000000000; Ts 1704153600000000000; Null])).1
      (unpack_range [19723]
         (series_min [Ts 1704067200000000000; Ts 1704153600000000000; Null])
         (series_max [Ts 1704067200000000000; Ts 1704153600000000000; Null])).2
      "Semua" [] = Ok f /\
    rows f = List.filter
               (fun r => has_date r && row_has_kategori "Semua" r
                         && row_has_item [] r)
               (rows sample_table).
Proof.
  apply (partial_range_shows_all_dates sample_table
           [Ts 1704067200000000000; Ts 1704153600000000000; Null]
           [19723] "Semua" []).
  - split; [repeat constructor|table_column..].
  - vm_compute. reflexivity.
  - vm_compute. lia.
Defined.

Lemma end_date_is_midnight_witness :
  late_sale_row ∉ rows (select_rows [true; false] late_sale_table).
Proof.
  apply (end_date_is_midnight late_sale_table
           (select_rows [true; false] late_sale_table) 19724 19724 "Semua" []
           late_sale_row 1704200400000000000).
  - split; [repeat constructor|table_column..].
  - vm_compute. reflexivity.
  - vm_compute. reflexivity.
  - vm_compute. reflexivity.
Defined.

Lemma sidebar_option_lists_witness :
  exists kategori nama ks items,
    getitem sample_table "Kategori" = Ok kategori /\
    getitem sample_table "Nama_Item" = Ok nama /\
    kategori_list sample_table = Ok ("Semua"%string :: ks) /\
    item_list sample_table = Ok items.
Proof.
  destruct (sidebar_option_lists sample_table)
    as (kategori & nama & ks & items & H1 & H2 & H3 & H4 & _).
  - split; [repeat constructor|table_column..].
  - exists kategori, nama, ks, items. repeat (split; [assumption|]). assumption.
Defined.

Lemma all_items_same_as_none_witness :
  apply_filter sample_table (Date 19723) (Date 19724) "Semua"
    ["Croissant"; "Latte"]%string
  = apply_filter sample_table (Date 19723) (Date 19724) "Semua" [].
Proof.
  apply (all_items_same_as_none sample_table ["Croissant"; "Latte"]%string
           ["Croissant"; "Latte"]%string (Date 19723) (Date 19724) "Semua").
  - split; [repeat constructor|table_column..].
  - vm_compute. reflexivity.
  - intros s Hs. exact Hs.
Defined.

Lemma groups_in_key_order_witness :
  NoDup [(Str "Coffee", 50000%Q); (Str "Food", 25000%Q)].*1.
Proof.
  refine (proj1 (proj2 (groups_in_key_order two_sales "Kategori" "Total_Penjualan"
                          [(Str "Coffee", 50000%Q); (Str "Food", 25000%Q)] _))).
  vm_compute. reflexivity.
Defined.


Lemma filter_step_reports_count_witness :
  exists filtered s',
    filter_step 1%positive (Widgets [19723; 19724] "Semua" ["Latte"]%string 8)
      sample_state = Done filtered s'.
Proof.
  destruct (filter_step_reports_count 1%positive sample_table
              (Widgets [19723; 19724] "Semua" ["Latte"]%string 8) sample_state
              [Ts 1704067200000000000; Ts 1704153600000000000; Null])
    as (filtered & s' & H & _).
  - vm_compute. reflexivity.
  - split; [repeat constructor|table_column..].
  - vm_compute. reflexivity.
  - exists filtered, s'. exact H.
Defined.

Lemma charts_step_draws_witness :
  exists bar line pie,
    aggregate_sum sample_table "Kategori" "Total_Penjualan" = Ok bar /\
    aggregate_sum sample_table "Tanggal" "Total_Penjualan" = Ok line /\
    aggregate_sum sample_table "Nama_Item" "Total_Penjualan" = Ok pie.
Proof.
  destruct (charts_step_draws sort_ties_reversed 1%positive sample_table
              (Widgets [] "Semua" [] 8) sample_state)
    as (bar & line & pie & H1 & H2 & H3 & _).
  - vm_compute. reflexivity.
  - split; [repeat constructor|table_column..].
  - exists bar, line, pie. split; [exact H1|]. split; [exact H2|exact H3].
Defined.

Lemma display_table_other_columns_witness :
  exists display_df disp s',
    table_step 1%positive sample_state = Done display_df s' /\
    heap s' !! display_df = Some disp /\
    columns disp = columns sample_table.
Proof.
  destruct (display_table_other_columns 1%positive sample_table sample_state)
    as (display_df & disp & s' & H1 & H2 & H3 & _).
  - vm_compute. reflexivity.
  - split; [repeat constructor|table_column..].
  - exists display_df, disp, s'. split; [exact H1|]. split; [exact H2|exact H3].
Defined.


Lemma round_half_even_nearest_witness :
  Z.even (round_half_even (5 # 2)) = true /\ round_half_even (7 # 1) = 7.
Proof.
  destruct (round_half_even_nearest (5 # 2)) as (_ & _ & H & _).
  destruct (round_half_even_nearest (7 # 1)) as (_ & _ & _ & H').
  split.
  - apply (H 2). reflexivity.
  - apply (H' 7). reflexivity.
Defined.

Lemma thousands_groups_witness :
  without_commas (list_ascii_of_string (thousands "1234567"))
  = list_ascii_of_string "1234567".
Proof.
  refine (proj1 (thousands_groups "1234567" _)).
  by_decide.
Defined.
